(* ===================================================================== *)
(*  dataworks-agent: the task classifier, the /run orchestrator and the   *)
(*  sandboxed /read endpoint of main.py, as a shallow embedding.          *)
(*                                                                        *)
(*  Python values are modelled as follows.                                *)
(*   - A str holding a task description or a path is a [string]; its      *)
(*     characters are the code points U+0000..U+00FF, and [lower] is      *)
(*     str.lower() on that range.                                         *)
(*   - The bytes of a file are a [list Z] of values in 0..255, the text   *)
(*     read from it a [list Z] of code points.                            *)
(*   - A call either returns or raises: [outcome].                        *)
(*   - The dict task_mapping is a [gmap string task_fn].                  *)
(*   - os.path is posixpath, and os.getcwd() succeeds.                    *)
(* ===================================================================== *)

From Stdlib Require Import ZArith Lia Ascii String List Bool.
From stdpp Require Import base option list strings gmap.

Local Open Scope string_scope.
Local Open Scope Z_scope.

(* --------------------------------------------------------------------- *)
(*  Python str operations used by main.py                                 *)
(* --------------------------------------------------------------------- *)

Module PyStr.

(* s.startswith(p) *)
Fixpoint startswith (p s : string) : bool :=
  match p, s with
  | EmptyString, _ => true
  | String a p', String b s' => Ascii.eqb a b && startswith p' s'
  | String _ _, EmptyString => false
  end.

(* s.endswith(c) for a one-character c *)
Fixpoint endswith_char (c : ascii) (s : string) : bool :=
  match s with
  | EmptyString => false
  | String a EmptyString => Ascii.eqb a c
  | String _ s' => endswith_char c s'
  end.

(* needle in hay *)
Fixpoint str_in (needle hay : string) : bool :=
  startswith needle hay ||
  match hay with
  | EmptyString => false
  | String _ hay' => str_in needle hay'
  end.

(* str.lower() of one character below U+0100: A-Z, and the Latin-1
   capitals U+00C0..U+00DE without the multiplication sign U+00D7. *)
Definition lower_char (c : ascii) : ascii :=
  let n := N_of_ascii c in
  if ((65 <=? n) && (n <=? 90))%N then ascii_of_N (n + 32)
  else if ((192 <=? n) && (n <=? 222) && negb (n =? 215))%N
       then ascii_of_N (n + 32)
  else c.

Fixpoint lower (s : string) : string :=
  match s with
  | EmptyString => EmptyString
  | String c s' => String (lower_char c) (lower s')
  end.

(* s.split(sep) for a one-character separator: never the empty list. *)
Fixpoint split (sep : ascii) (s : string) : list string :=
  match s with
  | EmptyString => [EmptyString]
  | String c s' =>
      if Ascii.eqb c sep then EmptyString :: split sep s'
      else match split sep s' with
           | [] => [String c EmptyString]
           | h :: t => String c h :: t
           end
  end.

(* sep.join(l) *)
Fixpoint join (sep : string) (l : list string) : string :=
  match l with
  | [] => EmptyString
  | [x] => x
  | x :: l' => x +:+ sep +:+ join sep l'
  end.

End PyStr.
Import PyStr.

(* --------------------------------------------------------------------- *)
(*  Exceptions and outcomes                                               *)
(* --------------------------------------------------------------------- *)

(* The exceptions main.py tells apart: fastapi's HTTPException, any other
   instance of Exception (carrying its str(e)), and an instance of
   BaseException that is no Exception (SystemExit, KeyboardInterrupt). *)
Inductive exn : Type :=
| HTTPException (status_code : Z) (detail : string)
| Exception (str_e : string)
| BaseException (str_e : string).

Inductive outcome (A : Type) : Type :=
| Return (a : A)
| Raise (e : exn).
Arguments Return {A} a.
Arguments Raise {A} e.

(* What FastAPI sends for an endpoint's outcome: 200 with the returned
   value, the status and detail of a raised HTTPException; any other
   exception leaves the endpoint unhandled. *)
Inductive http_response (B : Type) : Type :=
| Ok200 (body : B)
| ErrorResponse (status : Z) (detail : string)
| Unhandled (e : exn).
Arguments Ok200 {B} body.
Arguments ErrorResponse {B} status detail.
Arguments Unhandled {B} e.

Definition respond {B : Type} (o : outcome B) : http_response B :=
  match o with
  | Return b => Ok200 b
  | Raise (HTTPException s d) => ErrorResponse s d
  | Raise e => Unhandled e
  end.

(* --------------------------------------------------------------------- *)
(*  classify_task (main.py, lines 81-124)                                 *)
(* --------------------------------------------------------------------- *)

Definition classify_task (task : string) : outcome string :=
  let task_lower := lower task in
  if str_in "datagen.py" task_lower || str_in "install uv" task_lower then
    Return "A1"
  else if str_in "format" task_lower && str_in "prettier" task_lower then
    Return "A2"
  else if str_in "wednesday" task_lower
          || str_in "count" task_lower && str_in "dates.txt" task_lower then
    Return "A3"
  else if str_in "sort contacts" task_lower then
    Return "A4"
  else if str_in "recent" task_lower && str_in ".log" task_lower then
    Return "A5"
  else if str_in "markdown" task_lower && str_in "index" task_lower then
    Return "A6"
  else if str_in "email.txt" task_lower && str_in "sender" task_lower then
    Return "A7"
  else if str_in "credit card" task_lower then
    Return "A8"
  else if str_in "comments" task_lower && str_in "similar" task_lower then
    Return "A9"
  else if str_in "ticket-sales.db" task_lower || str_in "gold" task_lower then
    Return "A10"
  else if str_in "fetch data" task_lower || str_in "api" task_lower then
    Return "B3"
  else if str_in "clone" task_lower && str_in "git" task_lower then
    Return "B4"
  else if str_in "sql query" task_lower then
    Return "B5"
  else if str_in "scrape" task_lower || str_in "website" task_lower then
    Return "B6"
  else if str_in "resize image" task_lower
          || str_in "compress image" task_lower then
    Return "B7"
  else if str_in "transcribe" task_lower && str_in "mp3" task_lower then
    Return "B8"
  else if str_in "convert markdown" task_lower && str_in "html" task_lower then
    Return "B9"
  else if str_in "filter csv" task_lower then
    Return "B10"
  else
    Raise (HTTPException 400 "Task not recognized").

(* --------------------------------------------------------------------- *)
(*  The rule list as the specification words it (section 4.1, rules       *)
(*  1-18): data, to be compared with the branches of classify_task.       *)
(* --------------------------------------------------------------------- *)

Module Rules.

Inductive cond : Type :=
| Has (s : string)
| And (a b : cond)
| Or (a b : cond).

Fixpoint holds (c : cond) (text : string) : bool :=
  match c with
  | Has s => str_in s text
  | And a b => holds a text && holds b text
  | Or a b => holds a text || holds b text
  end.

Definition rules : list (cond * string) :=
  [ (Or (Has "datagen.py") (Has "install uv"), "A1");
    (And (Has "format") (Has "prettier"), "A2");
    (Or (Has "wednesday") (And (Has "count") (Has "dates.txt")), "A3");
    (Has "sort contacts", "A4");
    (And (Has "recent") (Has ".log"), "A5");
    (And (Has "markdown") (Has "index"), "A6");
    (And (Has "email.txt") (Has "sender"), "A7");
    (Has "credit card", "A8");
    (And (Has "comments") (Has "similar"), "A9");
    (Or (Has "ticket-sales.db") (Has "gold"), "A10");
    (Or (Has "fetch data") (Has "api"), "B3");
    (And (Has "clone") (Has "git"), "B4");
    (Has "sql query", "B5");
    (Or (Has "scrape") (Has "website"), "B6");
    (Or (Has "resize image") (Has "compress image"), "B7");
    (And (Has "transcribe") (Has "mp3"), "B8");
    (And (Has "convert markdown") (Has "html"), "B9");
    (Has "filter csv", "B10") ].

(* The category of the first rule whose predicate is true. *)
Fixpoint first_match (rs : list (cond * string)) (text : string)
  : option string :=
  match rs with
  | [] => None
  | (c, cat) :: rs' => if holds c text then Some cat else first_match rs' text
  end.

Definition classify (text : string) : outcome string :=
  match first_match rules (lower text) with
  | Some cat => Return cat
  | None => Raise (HTTPException 400 "Task not recognized")
  end.

(* The ways of satisfying a rule with as few triggers as possible: one
   list of trigger substrings per disjunct. *)
Fixpoint disjuncts (c : cond) : list (list string) :=
  match c with
  | Has s => [[s]]
  | Or a b => (disjuncts a ++ disjuncts b)%list
  | And a b =>
      flat_map (fun x => map (fun y => (x ++ y)%list) (disjuncts b))
               (disjuncts a)
  end.

(* Texts made of a rule's triggers only: the triggers of one disjunct in
   any order, glued by one of the separators. *)
Definition separators : list string := [" "; EmptyString; ", "; " and "].

Definition texts_of (c : cond) : list string :=
  flat_map (fun d =>
    flat_map (fun p => map (fun sep => join sep p) separators)
             (permutations d))
    (disjuncts c).

Definition trigger_texts : list (string * string) :=
  flat_map (fun r => map (fun t => (t, snd r)) (texts_of (fst r))) rules.

Definition returns (o : outcome string) (cat : string) : bool :=
  match o with
  | Return c => String.eqb c cat
  | Raise _ => false
  end.

End Rules.
Import Rules.

(* --------------------------------------------------------------------- *)
(*  task_mapping and run_task (main.py, lines 33-79 and 126-137)          *)
(* --------------------------------------------------------------------- *)

(* The eighteen functions imported from tasksA and tasksB. *)
Inductive task_fn : Type :=
| task_A1_install_and_run_datagen
| task_A2_format_markdown
| task_A3_count_weekdays
| task_A4_sort_contacts
| task_A5_recent_log_lines
| task_A6_extract_markdown_titles
| task_A7_extract_email_sender
| task_A8_extract_credit_card
| task_A9_find_similar_comments
| task_A10_compute_gold_ticket_sales
| task_B3_fetch_api_data
| task_B4_clone_and_commit
| task_B5_run_sql_query
| task_B6_scrape_website
| task_B7_process_image
| task_B8_transcribe_audio
| task_B9_convert_markdown_to_html
| task_B10_filter_csv.

Definition task_mapping : gmap string task_fn :=
  list_to_map
    [ ("A1", task_A1_install_and_run_datagen);
      ("A2", task_A2_format_markdown);
      ("A3", task_A3_count_weekdays);
      ("A4", task_A4_sort_contacts);
      ("A5", task_A5_recent_log_lines);
      ("A6", task_A6_extract_markdown_titles);
      ("A7", task_A7_extract_email_sender);
      ("A8", task_A8_extract_credit_card);
      ("A9", task_A9_find_similar_comments);
      ("A10", task_A10_compute_gold_ticket_sales);
      ("B3", task_B3_fetch_api_data);
      ("B4", task_B4_clone_and_commit);
      ("B5", task_B5_run_sql_query);
      ("B6", task_B6_scrape_website);
      ("B7", task_B7_process_image);
      ("B8", task_B8_transcribe_audio);
      ("B9", task_B9_convert_markdown_to_html);
      ("B10", task_B10_filter_csv) ].

(* {"status": ..., "task": ..., "result": ...} *)
Record envelope (P : Type) : Type := Envelope {
  status : string;
  task : string;
  result : P
}.
Arguments Envelope {P} status task result.
Arguments status {P} e.
Arguments task {P} e.
Arguments result {P} e.

(* str(KeyError(key)) is the repr of the key. *)
Definition str_KeyError (key : string) : string := "'" +:+ key +:+ "'".

(* The task functions live outside main.py: [invoke f s] is what calling
   f() does in the state s of the machine (files, network, processes): it
   returns a payload or raises, and leaves a new state. *)
Definition run_task_try {P S : Type}
    (invoke : task_fn -> S -> outcome P * S)
    (task : string) (s : S) : outcome (envelope P) * S :=
  match classify_task task with
  | Raise e => (Raise e, s)
  | Return classification =>
      match task_mapping !! classification with
      | None => (Raise (Exception (str_KeyError classification)), s)
      | Some f =>
          match invoke f s with
          | (Return result, s') =>
              (Return (Envelope "success" classification result), s')
          | (Raise e, s') => (Raise e, s')
          end
      end
  end.

Definition run_task {P S : Type}
    (invoke : task_fn -> S -> outcome P * S)
    (task : string) (s : S) : outcome (envelope P) * S :=
  match run_task_try invoke task s with
  | (Raise (HTTPException code d), s') => (Raise (HTTPException code d), s')
  | (Raise (Exception str_e), s') => (Raise (HTTPException 500 str_e), s')
  | other => other
  end.

(* --------------------------------------------------------------------- *)
(*  os.path on POSIX, as read_file uses it                                *)
(* --------------------------------------------------------------------- *)

Module posixpath.

Definition isabs (s : string) : bool := startswith "/" s.

(* os.path.join(a, p) *)
Definition join2 (a p : string) : string :=
  if startswith "/" p then p
  else if String.eqb a EmptyString || endswith_char "/" a then a +:+ p
  else a +:+ "/" +:+ p.

Definition is_nil (l : list string) : bool :=
  match l with [] => true | _ => false end.

(* new_comps[-1] == '..' *)
Definition last_is_dotdot (l : list string) : bool :=
  String.eqb (List.last l EmptyString) "..".

(* One round of the loop of normpath over the components. *)
Definition norm_step (initial_slashes : nat) (new_comps : list string)
    (comp : string) : list string :=
  if String.eqb comp EmptyString || String.eqb comp "." then new_comps
  else if negb (String.eqb comp "..")
          || (Nat.eqb initial_slashes 0 && is_nil new_comps)
          || (negb (is_nil new_comps) && last_is_dotdot new_comps)
       then (new_comps ++ [comp])%list
  else if negb (is_nil new_comps) then List.removelast new_comps
  else new_comps.

Fixpoint slashes (n : nat) : string :=
  match n with
  | O => EmptyString
  | S n' => String "/" (slashes n')
  end.

Definition initial_slashes_of (path : string) : nat :=
  if startswith "/" path then
    if startswith "//" path && negb (startswith "///" path) then 2%nat
    else 1%nat
  else 0%nat.

(* The list new_comps when the loop of normpath ends. *)
Definition normpath_comps (path : string) : list string :=
  fold_left (norm_step (initial_slashes_of path)) (split "/" path) [].

Definition normpath (path : string) : string :=
  if String.eqb path EmptyString then "."
  else
    let initial_slashes := initial_slashes_of path in
    let comps := normpath_comps path in
    let path := join "/" comps in
    let path := slashes initial_slashes +:+ path in
    if String.eqb path EmptyString then "." else path.

(* The path abspath hands to normpath. *)
Definition absolute (cwd path : string) : string :=
  if isabs path then path else join2 cwd path.

Definition abspath (cwd path : string) : string :=
  normpath (absolute cwd path).

(* A component that normpath has nothing left to do with. *)
Definition resolved (comp : string) : Prop :=
  comp <> ".." /\ comp <> "." /\ comp <> EmptyString.

(* p names the directory root itself or something below it. *)
Definition under (root p : string) : bool :=
  String.eqb p root || startswith (root +:+ "/") p.

End posixpath.
Import posixpath.

(* --------------------------------------------------------------------- *)
(*  Text files: open(path, "r", encoding="utf-8") and f.read()            *)
(* --------------------------------------------------------------------- *)

Module Utf8.

(* A continuation byte 10xxxxxx. *)
Definition cont (b : Z) : bool := (128 <=? b) && (b <=? 191).

Definition surrogate (cp : Z) : bool := (55296 <=? cp) && (cp <=? 57343).

(* The strict decoder: shortest form only, no surrogates, at most
   U+10FFFF. None stands for UnicodeDecodeError. *)
Fixpoint decode (bs : list Z) : option (list Z) :=
  match bs with
  | [] => Some []
  | b0 :: r0 =>
      if (0 <=? b0) && (b0 <? 128) then
        option_map (cons b0) (decode r0)
      else if (192 <=? b0) && (b0 <? 224) then
        match r0 with
        | b1 :: r1 =>
            let cp := (b0 - 192) * 64 + (b1 - 128) in
            if cont b1 && (128 <=? cp)
            then option_map (cons cp) (decode r1)
            else None
        | _ => None
        end
      else if (224 <=? b0) && (b0 <? 240) then
        match r0 with
        | b1 :: b2 :: r2 =>
            let cp := (b0 - 224) * 4096 + (b1 - 128) * 64 + (b2 - 128) in
            if cont b1 && cont b2 && (2048 <=? cp) && negb (surrogate cp)
            then option_map (cons cp) (decode r2)
            else None
        | _ => None
        end
      else if (240 <=? b0) && (b0 <? 248) then
        match r0 with
        | b1 :: b2 :: b3 :: r3 =>
            let cp := (b0 - 240) * 262144 + (b1 - 128) * 4096
                      + (b2 - 128) * 64 + (b3 - 128) in
            if cont b1 && cont b2 && cont b3
               && (65536 <=? cp) && (cp <=? 1114111)
            then option_map (cons cp) (decode r3)
            else None
        | _ => None
        end
      else None
  end.

(* str.encode("utf-8") of one code point; None stands for
   UnicodeEncodeError (a surrogate). *)
Definition encode_cp (cp : Z) : option (list Z) :=
  if (0 <=? cp) && (cp <? 128) then Some [cp]
  else if (128 <=? cp) && (cp <? 2048) then
    Some [192 + cp / 64; 128 + cp mod 64]
  else if (2048 <=? cp) && (cp <? 65536) then
    if surrogate cp then None
    else Some [224 + cp / 4096; 128 + (cp / 64) mod 64; 128 + cp mod 64]
  else if (65536 <=? cp) && (cp <=? 1114111) then
    Some [240 + cp / 262144; 128 + (cp / 4096) mod 64;
          128 + (cp / 64) mod 64; 128 + cp mod 64]
  else None.

Fixpoint encode (s : list Z) : option (list Z) :=
  match s with
  | [] => Some []
  | cp :: s' =>
      match encode_cp cp, encode s' with
      | Some a, Some b => Some (a ++ b)%list
      | _, _ => None
      end
  end.

(* Universal newlines (newline=None on reading): "\r\n" and "\r" are
   handed to the program as "\n". *)
Fixpoint translate_newlines (s : list Z) : list Z :=
  match s with
  | [] => []
  | c :: s' =>
      if c =? 13 then
        match s' with
        | d :: s'' =>
            if d =? 10 then 10 :: translate_newlines s''
            else 10 :: translate_newlines s'
        | [] => [10]
        end
      else c :: translate_newlines s'
  end.

End Utf8.

(* --------------------------------------------------------------------- *)
(*  read_file (main.py, lines 139-151)                                    *)
(* --------------------------------------------------------------------- *)

(* What the operating system answers when a file is opened and read to
   its end in binary: the bytes, or an Exception with its str(e). *)
Inductive io_result : Type :=
| Bytes (bs : list Z)
| IOFailure (str_e : string).

(* The machine as read_file sees it. *)
Record world : Type := World {
  getcwd : string;                       (* os.getcwd() *)
  path_exists : string -> bool;          (* os.path.exists *)
  read_bytes : string -> io_result;      (* the file behind a path *)
  str_decode_error : list Z -> string    (* str(e) of UnicodeDecodeError *)
}.

(* The calls read_file makes on the filesystem, in order. *)
Inductive fs_call : Type :=
| CallExists (path : string)
| CallOpen (path : string).

(* with open(path, "r", encoding="utf-8") as f: content = f.read()
   inl: the str(e) of the Exception raised; inr: content. *)
Definition open_read_text (w : world) (path : string) : string + list Z :=
  match read_bytes w path with
  | IOFailure str_e => inl str_e
  | Bytes bs =>
      match Utf8.decode bs with
      | Some s => inr (Utf8.translate_newlines s)
      | None => inl (str_decode_error w bs)
      end
  end.

(* The condition of the first if of read_file, without the [not]. *)
Definition path_is_safe (w : world) (path : string) : bool :=
  startswith (abspath (getcwd w) "/data") (abspath (getcwd w) path)
  || startswith (abspath (getcwd w) "./data") (abspath (getcwd w) path).

Definition read_file (w : world) (path : string)
  : outcome (list Z) * list fs_call :=
  if negb (path_is_safe w path) then
    (Raise (HTTPException 400 "Access to files outside /data is forbidden"),
     [])
  else if negb (path_exists w path) then
    (Raise (HTTPException 404 "File not found"), [CallExists path])
  else
    match open_read_text w path with
    | inr content => (Return content, [CallExists path; CallOpen path])
    | inl str_e =>
        (Raise (HTTPException 500 str_e), [CallExists path; CallOpen path])
    end.

(* PlainTextResponse(content): the body is content.encode("utf-8"). *)
Definition body_bytes (content : list Z) : option (list Z) :=
  Utf8.encode content.

(* The exception of the first if of read_file. *)
Definition forbidden : exn :=
  HTTPException 400 "Access to files outside /data is forbidden".

(* --------------------------------------------------------------------- *)
(*  Concrete task functions and machines, for the examples below          *)
(* --------------------------------------------------------------------- *)

Module Fixtures.

(* Task functions over a machine state that counts the calls made. *)
Definition returns_done (f : task_fn) (calls : nat)
  : outcome string * nat := (Return "done", S calls).

Definition raises_404 (f : task_fn) (calls : nat)
  : outcome string * nat :=
  (Raise (HTTPException 404 "Not Found"), S calls).

Definition raises_error (f : task_fn) (calls : nat)
  : outcome string * nat :=
  (Raise (Exception "disk full"), S calls).

Definition exits (f : task_fn) (calls : nat)
  : outcome string * nat :=
  (Raise (BaseException "1"), S calls).

(* A machine started in /app with /data/notes.txt ("a\r\nb"),
   /data/plain.txt ("hi\n"), /data/latin1.txt (one byte 0xE9), the
   directories /data and /database, /database/x ("x") and
   /app/data/y ("y"). *)
Definition disk_exists (path : string) : bool :=
  String.eqb path "/data/notes.txt" || String.eqb path "/data/plain.txt"
  || String.eqb path "/data/latin1.txt" || String.eqb path "/data"
  || String.eqb path "/database" || String.eqb path "/database/x"
  || String.eqb path "data/y" || String.eqb path "/app/data/y".

Definition disk_read (path : string) : io_result :=
  if String.eqb path "/data/notes.txt" then Bytes [97; 13; 10; 98]
  else if String.eqb path "/data/plain.txt" then Bytes [104; 105; 10]
  else if String.eqb path "/data/latin1.txt" then Bytes [233]
  else if String.eqb path "/data" then
    IOFailure "[Errno 21] Is a directory: '/data'"
  else if String.eqb path "/database/x" then Bytes [120]
  else if String.eqb path "data/y" || String.eqb path "/app/data/y" then
    Bytes [121]
  else IOFailure "[Errno 2] No such file or directory".

Definition machine : world :=
  World "/app" disk_exists disk_read
        (fun _ => "'utf-8' codec can't decode bytes").

End Fixtures.

(* --------------------------------------------------------------------- *)
(*  Start of the process (main.py, lines 11-18)                           *)
(* --------------------------------------------------------------------- *)

Module Startup.

(* load_dotenv(): the variables of the .env file are added to os.environ,
   those already set there are left alone (override=False). *)
Definition load_dotenv (dotenv environ : gmap string string)
  : gmap string string := environ ∪ dotenv.

(* bool(v) for the value of os.environ.get: None and the empty string are
   false. *)
Definition truthy (v : option string) : bool :=
  match v with
  | None => false
  | Some s => negb (String.eqb s EmptyString)
  end.

(* The module body down to the check of the token: the api key the
   process starts with, or the exception that ends it. *)
Definition startup (dotenv environ : gmap string string)
  : outcome (option string) :=
  let environ := load_dotenv dotenv environ in
  let api_key := environ !! "AIPROXY_TOKEN" in
  if negb (truthy api_key) then
    Raise (Exception
      "AIPROXY_TOKEN is not set. Please set it in your environment variables.")
  else Return api_key.

End Startup.

(* --------------------------------------------------------------------- *)
(*  Predicates used to state properties of paths and texts                *)
(* --------------------------------------------------------------------- *)

(* A Unicode scalar value: a code point that is no surrogate. *)
Definition scalar (cp : Z) : Prop :=
  0 <= cp < 55296 \/ 57343 < cp <= 1114111.

(* A string without "/". *)
Definition no_slash (s : string) : Prop := str_in "/" s = false.

(* ===================================================================== *)
(*  Theorems                                                              *)
(* ===================================================================== *)

(* --------------------------------------------------------------------- *)
(*  The classifier                                                        *)
(* --------------------------------------------------------------------- *)

(* classify_task is the rule list of the specification, first match
   wins. *)
Lemma classify_task_first_match (text : string) :
  classify_task text = Rules.classify text.
Proof.
  unfold classify_task, Rules.classify, rules.
  cbn [first_match holds].
  generalize (lower text) as t; intro t; cbv zeta.
  repeat match goal with
  | |- (if ?c then _ else _) = _ => destruct c; [reflexivity |]
  end.
  reflexivity.
Qed.

Lemma classify_task_lower (t1 t2 : string) :
  lower t1 = lower t2 -> classify_task t1 = classify_task t2.
Proof. intros H. unfold classify_task. now rewrite H. Qed.

Lemma returns_true (o : outcome string) (cat : string) :
  returns o cat = true -> o = Return cat.
Proof.
  destruct o as [c | e]; simpl; [| discriminate].
  intros H. apply String.eqb_eq in H. now subst.
Qed.

Lemma trigger_texts_classified :
  forallb (fun tc => returns (classify_task (fst tc)) (snd tc))
          trigger_texts = true.
Proof. vm_compute. reflexivity. Qed.

Lemma texts_of_trigger_texts (c : cond) (cat text : string) :
  In (c, cat) rules -> In text (texts_of c) -> In (text, cat) trigger_texts.
Proof.
  intros Hr Ht. unfold trigger_texts. apply in_flat_map.
  exists (c, cat). split; [exact Hr |].
  apply in_map_iff. exists text. now split.
Qed.

(* Every category the classifier returns is a key of task_mapping. *)
Lemma classify_task_in_mapping (text cat : string) :
  classify_task text = Return cat -> is_Some (task_mapping !! cat).
Proof.
  unfold classify_task. generalize (lower text) as t; intro t; cbv zeta.
  repeat match goal with
  | |- (if ?c then _ else _) = _ -> _ =>
      destruct c; [intros [= <-]; vm_compute; eauto |]
  end.
  intros [=].
Qed.

(** C3. For each of the eighteen rules, a task text made of the trigger
    substrings of one way of satisfying the rule and of nothing else (the
    triggers in any order, glued by a blank, by nothing, by a comma or by
    "and") is classified to that rule's category, and so is every text
    with the same lowercased form: matching ignores case.  Rule 3 is met
    by "wednesday" alone and by "count" with "dates.txt", while "count"
    alone is not recognized. *)
Theorem classify_task_trigger_texts :
  List.length rules = 18%nat
  /\ (forall c cat text text',
        In (c, cat) rules -> In text (texts_of c) ->
        lower text' = lower text ->
        classify_task text' = Return cat)
  /\ (forall c cat, In (c, cat) rules -> texts_of c <> [])
  /\ classify_task "wednesday" = Return "A3"
  /\ classify_task "count dates.txt" = Return "A3"
  /\ classify_task "count" = Raise (HTTPException 400 "Task not recognized").
Proof.
  split; [reflexivity |]. split; [| split].
  - intros c cat text text' Hr Ht Hl.
    rewrite (classify_task_lower _ _ Hl).
    pose proof (texts_of_trigger_texts _ _ _ Hr Ht) as Hin.
    pose proof trigger_texts_classified as Hall.
    rewrite forallb_forall in Hall.
    apply returns_true. exact (Hall _ Hin).
  - intros c cat Hr. simpl in Hr.
    repeat (destruct Hr as [[= <- <-] | Hr]; [vm_compute; discriminate |]).
    destruct Hr.
  - repeat split; reflexivity.
Qed.

Lemma classify_task_trigger_texts_witness :
  classify_task "Dates.TXT, Count" = Return "A3".
Proof.
  apply (proj1 (proj2 classify_task_trigger_texts)
           (Or (Has "wednesday") (And (Has "count") (Has "dates.txt")))
           "A3" "dates.txt, count" "Dates.TXT, Count").
  - simpl. right. right. left. reflexivity.
  - vm_compute. do 10 right. left. reflexivity.
  - reflexivity.
Defined.

Lemma first_match_app (rs1 rs2 : list (cond * string)) (text : string) :
  first_match (rs1 ++ rs2) text
  = match first_match rs1 text with
    | Some cat => Some cat
    | None => first_match rs2 text
    end.
Proof.
  induction rs1 as [| [c cat] rs1 IH]; simpl; [reflexivity |].
  destruct (holds c text); [reflexivity | exact IH].
Qed.

Lemma first_match_None (rs : list (cond * string)) (text : string) :
  first_match rs text = None
  <-> (forall c cat, In (c, cat) rs -> holds c text = false).
Proof.
  induction rs as [| [c0 cat0] rs IH]; simpl.
  - split; [intros _ c cat [] | reflexivity].
  - destruct (holds c0 text) eqn:Hc.
    + split; [discriminate |]. intros H.
      specialize (H c0 cat0 (or_introl eq_refl)). congruence.
    + rewrite IH. split.
      * intros H c cat [[= <- <-] | Hin]; [exact Hc | eauto].
      * intros H c cat Hin. eauto.
Qed.

(* First match wins: the rule at position i decides as soon as it holds
   and none of the rules before it does. *)
Lemma first_match_wins (i : nat) (c : cond) (cat text : string) :
  nth_error rules i = Some (c, cat) ->
  holds c (lower text) = true ->
  first_match (firstn i rules) (lower text) = None ->
  classify_task text = Return cat.
Proof.
  intros Hi Hc Hnone.
  rewrite classify_task_first_match. unfold Rules.classify.
  rewrite <- (firstn_skipn i rules), first_match_app, Hnone.
  destruct (nth_error_split _ _ Hi) as (l1 & l2 & Hr & Hlen).
  rewrite Hr, <- Hlen, skipn_app, skipn_all, Nat.sub_diag. simpl.
  now rewrite Hc.
Qed.

(** C4, as the code has it. Rule 11 ("fetch data" or "api", B3) stands
    before rule 13 ("sql query", B5): a task text whose lowercased form
    contains both "sql query" and "api" is never classified B5, and it is
    classified B3 when it satisfies none of the rules 1-10. *)
Theorem classify_task_api_before_sql_query (text : string) :
  str_in "sql query" (lower text) = true ->
  str_in "api" (lower text) = true ->
  nth_error rules 10 = Some (Or (Has "fetch data") (Has "api"), "B3")
  /\ nth_error rules 12 = Some (Has "sql query", "B5")
  /\ classify_task text <> Return "B5"
  /\ (first_match (firstn 10 rules) (lower text) = None ->
      classify_task text = Return "B3").
Proof.
  intros _ Hapi. split; [reflexivity |]. split; [reflexivity |]. split.
  - unfold classify_task. revert Hapi.
    generalize (lower text) as t; intros t Hapi; cbv zeta.
    rewrite Hapi, orb_true_r.
    repeat match goal with
    | |- (if ?c then _ else _) <> _ => destruct c; [discriminate |]
    end.
    discriminate.
  - intros Hnone.
    apply (first_match_wins 10 (Or (Has "fetch data") (Has "api"))).
    + reflexivity.
    + simpl. rewrite Hapi. apply orb_true_r.
    + exact Hnone.
Qed.

Lemma classify_task_api_before_sql_query_witness :
  classify_task "Run the SQL query through the API" = Return "B3"
  /\ classify_task "Run the SQL query through the API" <> Return "B5".
Proof.
  destruct (classify_task_api_before_sql_query
              "Run the SQL query through the API" eq_refl eq_refl)
    as (_ & _ & Hne & Heq).
  split; [apply Heq; reflexivity | exact Hne].
Defined.

(* Counterexample to C4 as stated: this text contains both "sql query"
   and "api", and rule 10 ("ticket-sales.db") takes it to A10. *)
Lemma classify_task_sql_query_api_not_B3 :
  str_in "sql query" "run a sql query on ticket-sales.db via the api" = true
  /\ str_in "api" "run a sql query on ticket-sales.db via the api" = true
  /\ classify_task "run a sql query on ticket-sales.db via the api"
     = Return "A10"
  /\ classify_task "run a sql query on ticket-sales.db via the api"
     <> Return "B3".
Proof. repeat split; try reflexivity. discriminate. Qed.

(* --------------------------------------------------------------------- *)
(*  The /run orchestrator                                                 *)
(* --------------------------------------------------------------------- *)

Section Run.

Context {P S : Type}.
Variable invoke : task_fn -> S -> outcome P * S.

(* Once the task is classified, the lookup finds a function and run_task
   is decided by what that function does. *)
Lemma run_task_try_classified (text cat : string) (s : S) :
  classify_task text = Return cat ->
  exists f, task_mapping !! cat = Some f
    /\ run_task_try invoke text s
       = match invoke f s with
         | (Return r, s') => (Return (Envelope "success" cat r), s')
         | (Raise e, s') => (Raise e, s')
         end.
Proof.
  intros Hc. destruct (classify_task_in_mapping _ _ Hc) as [f Hf].
  exists f. split; [exact Hf |].
  unfold run_task_try. now rewrite Hc, Hf.
Qed.

(** C5. A task text whose lowercased form satisfies none of the eighteen
    rule predicates makes classify_task raise HTTPException(400, "Task not
    recognized"); run_task lets it through, so /run answers 400 with that
    detail, and no task function has run. *)
Theorem run_task_not_recognized (text : string) (s : S) :
  (forall c cat, In (c, cat) rules -> holds c (lower text) = false) ->
  classify_task text = Raise (HTTPException 400 "Task not recognized")
  /\ run_task invoke text s
     = (Raise (HTTPException 400 "Task not recognized"), s)
  /\ respond (fst (run_task invoke text s))
     = ErrorResponse 400 "Task not recognized".
Proof.
  intros Hnone. apply first_match_None in Hnone.
  assert (Hc : classify_task text
               = Raise (HTTPException 400 "Task not recognized")).
  { rewrite classify_task_first_match. unfold Rules.classify.
    now rewrite Hnone. }
  assert (Hr : run_task invoke text s
               = (Raise (HTTPException 400 "Task not recognized"), s)).
  { unfold run_task, run_task_try. now rewrite Hc. }
  repeat split; [exact Hc | exact Hr | now rewrite Hr].
Qed.

(** C6. The category classify_task returns is always a key of
    task_mapping: the lookup of run_task finds a function, and the
    KeyError branch is never taken. *)
Theorem task_mapping_total (text cat : string) :
  classify_task text = Return cat ->
  exists f, task_mapping !! cat = Some f
    /\ forall s, run_task_try invoke text s
       = match invoke f s with
         | (Return r, s') => (Return (Envelope "success" cat r), s')
         | (Raise e, s') => (Raise e, s')
         end.
Proof.
  intros Hc. destruct (classify_task_in_mapping _ _ Hc) as [f Hf].
  exists f. split; [exact Hf |]. intros s.
  destruct (run_task_try_classified text cat s Hc) as (f' & Hf' & Hrun).
  rewrite Hf in Hf'. injection Hf' as <-. exact Hrun.
Qed.

(** C7, as the code has it. For a task text that classifies to a
    category: when the task function returns a payload, /run answers 200
    with {"status": "success", "task": category, "result": payload}, the
    payload untouched; when it raises an Exception that is no
    HTTPException, /run answers 500 with str(e) as the detail. *)
Theorem run_task_envelope (text cat : string) (s : S) :
  classify_task text = Return cat ->
  exists f, task_mapping !! cat = Some f
    /\ (forall payload s', invoke f s = (Return payload, s') ->
          respond (fst (run_task invoke text s))
          = Ok200 (Envelope "success" cat payload)
          /\ result (Envelope "success" cat payload) = payload)
    /\ (forall str_e s', invoke f s = (Raise (Exception str_e), s') ->
          respond (fst (run_task invoke text s)) = ErrorResponse 500 str_e).
Proof.
  intros Hc.
  destruct (run_task_try_classified text cat s Hc) as (f & Hf & Hrun).
  exists f. split; [exact Hf |]. unfold run_task. rewrite Hrun. split.
  - intros payload s' Hi. rewrite Hi. split; reflexivity.
  - intros str_e s' Hi. rewrite Hi. reflexivity.
Qed.

(** C8. When the task function raises an HTTPException, run_task raises
    that very exception again: its status code and detail reach the
    client (a 404 stays a 404).  Only an Exception that is no
    HTTPException is wrapped as 500 with str(e). *)
Theorem run_task_reraises_HTTPException (text cat : string) (s : S) :
  classify_task text = Return cat ->
  exists f, task_mapping !! cat = Some f
    /\ (forall code d s', invoke f s = (Raise (HTTPException code d), s') ->
          run_task invoke text s = (Raise (HTTPException code d), s')
          /\ respond (fst (run_task invoke text s)) = ErrorResponse code d)
    /\ (forall str_e s', invoke f s = (Raise (Exception str_e), s') ->
          run_task invoke text s = (Raise (HTTPException 500 str_e), s'))
    /\ (forall e s', invoke f s = (Raise e, s') ->
          (forall str_e, e <> Exception str_e) ->
          run_task invoke text s = (Raise e, s')).
Proof.
  intros Hc.
  destruct (run_task_try_classified text cat s Hc) as (f & Hf & Hrun).
  exists f. split; [exact Hf |]. unfold run_task. rewrite Hrun.
  split; [| split].
  - intros code d s' Hi. rewrite Hi. split; reflexivity.
  - intros str_e s' Hi. rewrite Hi. reflexivity.
  - intros e s' Hi Hne. rewrite Hi.
    destruct e as [code d | m | m]; try reflexivity.
    now destruct (Hne m).
Qed.

End Run.

Lemma run_task_not_recognized_witness :
  respond (fst (run_task Fixtures.returns_done "Hello, world" 0%nat))
  = ErrorResponse 400 "Task not recognized".
Proof.
  apply (run_task_not_recognized Fixtures.returns_done "Hello, world" 0%nat).
  intros c cat Hin. simpl in Hin.
  repeat (destruct Hin as [[= <- <-] | Hin]; [reflexivity |]).
  destruct Hin.
Defined.

Lemma task_mapping_total_witness :
  exists f, task_mapping !! "B5" = Some f.
Proof.
  destruct (task_mapping_total Fixtures.returns_done
              "please run this SQL query" "B5" eq_refl) as (f & Hf & _).
  exists f. exact Hf.
Defined.

Lemma run_task_envelope_witness :
  respond (fst (run_task Fixtures.returns_done "Install uv first" 0%nat))
  = Ok200 (Envelope "success" "A1" "done")
  /\ respond (fst (run_task Fixtures.raises_error "Install uv first" 0%nat))
     = ErrorResponse 500 "disk full".
Proof.
  split.
  - destruct (run_task_envelope Fixtures.returns_done
                "Install uv first" "A1" 0%nat eq_refl) as (f & _ & Hret & _).
    exact (proj1 (Hret "done" 1%nat eq_refl)).
  - destruct (run_task_envelope Fixtures.raises_error
                "Install uv first" "A1" 0%nat eq_refl) as (f & _ & _ & Hexn).
    exact (Hexn "disk full" 1%nat eq_refl).
Defined.

(* Counterexample to C7 as stated: a task function that raises
   HTTPException(404, "Not Found") makes /run answer 404, not 500; one
   that raises a BaseException that is no Exception is not answered by
   run_task at all. *)
Lemma run_task_failure_not_500 :
  classify_task "Install uv first" = Return "A1"
  /\ respond (fst (run_task Fixtures.raises_404 "Install uv first" 0%nat))
     = ErrorResponse 404 "Not Found"
  /\ respond (fst (run_task Fixtures.raises_404 "Install uv first" 0%nat))
     <> ErrorResponse 500 "Not Found"
  /\ respond (fst (run_task Fixtures.exits "Install uv first" 0%nat))
     = Unhandled (BaseException "1").
Proof. repeat split; try reflexivity. discriminate. Qed.

Lemma run_task_reraises_HTTPException_witness :
  run_task Fixtures.raises_404 "Install uv first" 0%nat
  = (Raise (HTTPException 404 "Not Found"), 1%nat).
Proof.
  destruct (run_task_reraises_HTTPException Fixtures.raises_404
              "Install uv first" "A1" 0%nat eq_refl) as (f & _ & Hhttp & _).
  exact (proj1 (Hhttp 404 "Not Found" 1%nat eq_refl)).
Defined.

(* --------------------------------------------------------------------- *)
(*  Prefixes, substrings and os.path                                      *)
(* --------------------------------------------------------------------- *)

Lemma startswith_refl (p : string) : startswith p p = true.
Proof.
  induction p as [| a p IH]; simpl; [reflexivity |].
  now rewrite Ascii.eqb_refl, IH.
Qed.

Lemma startswith_app_l (a b s : string) :
  startswith (a +:+ b) s = true -> startswith a s = true.
Proof.
  revert s. induction a as [| c a IH]; intros s; simpl; [reflexivity |].
  destruct s as [| d s]; [discriminate |].
  intros H. apply andb_true_iff in H as [Hc Hs].
  rewrite Hc. simpl. now apply IH.
Qed.

Lemma startswith_trans (x p s : string) :
  startswith x p = true -> startswith p s = true -> startswith x s = true.
Proof.
  revert p s. induction x as [| a x IH]; intros p s; simpl; [reflexivity |].
  destruct p as [| b p]; [discriminate |].
  destruct s as [| c s]; simpl; [discriminate |].
  intros H1 H2.
  apply andb_true_iff in H1 as [Hab Hx].
  apply andb_true_iff in H2 as [Hbc Hp].
  apply Ascii.eqb_eq in Hab, Hbc. subst.
  rewrite Ascii.eqb_refl. simpl. eapply IH; eassumption.
Qed.

(* A substring of a prefix of s is a substring of s. *)
Lemma str_in_prefix (x p s : string) :
  startswith p s = true -> str_in x p = true -> str_in x s = true.
Proof.
  revert s. induction p as [| b p IH]; intros s Hp Hx.
  - simpl in Hx. rewrite orb_false_r in Hx.
    destruct s; simpl; rewrite (startswith_trans _ _ _ Hx Hp); reflexivity.
  - destruct s as [| c s]; [discriminate |].
    cbn [str_in] in Hx |- *. apply orb_true_iff in Hx as [Hx | Hx].
    + now rewrite (startswith_trans _ _ _ Hx Hp).
    + simpl in Hp. apply andb_true_iff in Hp as [_ Hp].
      rewrite (IH s Hp Hx). apply orb_true_r.
Qed.

Lemma str_in_refl (x : string) : str_in x x = true.
Proof. destruct x; simpl; [reflexivity |]. now rewrite Ascii.eqb_refl, startswith_refl. Qed.

Lemma str_in_app_skip (a b x : string) :
  str_in x b = true -> str_in x (a +:+ b) = true.
Proof.
  intros H. induction a as [| c a IH]; simpl; [exact H |].
  rewrite IH. apply orb_true_r.
Qed.

Lemma under_startswith (root p : string) :
  under root p = true -> startswith root p = true.
Proof.
  unfold under. intros H. apply orb_true_iff in H as [H | H].
  - apply String.eqb_eq in H. subst. apply startswith_refl.
  - eapply startswith_app_l. exact H.
Qed.

Lemma split_not_nil (sep : ascii) (s : string) : split sep s <> [].
Proof.
  induction s as [| c s IH]; simpl; [discriminate |].
  destruct (Ascii.eqb c sep); [discriminate |].
  destruct (split sep s); [contradiction | discriminate].
Qed.

Lemma split_app (sep : ascii) (a b : string) :
  split sep (a +:+ String sep b) = (split sep a ++ split sep b)%list.
Proof.
  induction a as [| c a IH]; simpl.
  - now rewrite Ascii.eqb_refl.
  - destruct (Ascii.eqb c sep); [now rewrite IH |].
    rewrite IH. pose proof (split_not_nil sep a) as Hne.
    destruct (split sep a); [contradiction | reflexivity].
Qed.

Lemma join_snoc_str_in (sep x : string) (l : list string) :
  str_in x (join sep (l ++ [x])) = true.
Proof.
  induction l as [| a l IH]; [apply str_in_refl |].
  change ((a :: l) ++ [x])%list with (a :: (l ++ [x]))%list.
  cbn [join]. destruct (l ++ [x])%list eqn:E.
  - now destruct l.
  - now do 2 apply str_in_app_skip.
Qed.

Lemma endswith_char_app (c : ascii) (s : string) :
  endswith_char c s = true -> exists s', s = s' +:+ String c EmptyString.
Proof.
  induction s as [| a s IH]; simpl; [discriminate |].
  destruct s as [| b s].
  - intros H. apply Ascii.eqb_eq in H. subst. now exists EmptyString.
  - intros H. destruct (IH H) as [s' Hs']. exists (String a s').
    rewrite Hs'. reflexivity.
Qed.

Lemma string_app_assoc (a b c : string) :
  (a +:+ b) +:+ c = a +:+ (b +:+ c).
Proof.
  induction a as [| x a IH]; [reflexivity |].
  change (String x ((a +:+ b) +:+ c) = String x (a +:+ (b +:+ c))).
  now rewrite IH.
Qed.

Lemma string_app_not_empty (a : string) (c : ascii) (b : string) :
  String.eqb (a +:+ String c b) EmptyString = false.
Proof. destruct a; reflexivity. Qed.

(* The normal form of anything ending in "/./data" ends in "data". *)
Lemma normpath_slash_dot_data (x : string) :
  str_in "data" (normpath (x +:+ "/./data")) = true.
Proof.
  unfold normpath, normpath_comps. rewrite string_app_not_empty.
  generalize (initial_slashes_of (x +:+ "/./data")) as n; intro n. cbv zeta.
  rewrite (split_app "/" x "./data"), fold_left_app.
  generalize (fold_left (norm_step n) (split "/" x) []) as acc; intro acc.
  change (fold_left (norm_step n) (split "/" "./data") acc)
    with (acc ++ ["data"])%list.
  assert (H : str_in "data" (slashes n +:+ join "/" (acc ++ ["data"])) = true).
  { apply str_in_app_skip, join_snoc_str_in. }
  destruct (String.eqb _ EmptyString) eqn:E; [| exact H].
  apply String.eqb_eq in E. rewrite E in H. discriminate.
Qed.

(* Whatever the working directory, abspath("./data") names something
   called data. *)
Lemma abspath_dot_data (cwd : string) :
  str_in "data" (abspath cwd "./data") = true.
Proof.
  unfold abspath, absolute. change (isabs "./data") with false. cbv iota.
  unfold join2. change (startswith "/" "./data") with false. cbv iota.
  destruct (String.eqb cwd EmptyString) eqn:Hcwd.
  - apply String.eqb_eq in Hcwd. subst. reflexivity.
  - simpl orb. destruct (endswith_char "/" cwd) eqn:Hend.
    + destruct (endswith_char_app _ _ Hend) as [x ->].
      rewrite string_app_assoc. apply normpath_slash_dot_data.
    + apply normpath_slash_dot_data.
Qed.

Lemma abspath_slash_data (cwd : string) : abspath cwd "/data" = "/data".
Proof. reflexivity. Qed.

(* In an absolute path, one round of the loop keeps new_comps free of
   "..", "." and empty components. *)
Lemma norm_step_resolved (n : nat) (acc : list string) (comp : string) :
  n <> 0%nat -> Forall resolved acc -> Forall resolved (norm_step n acc comp).
Proof.
  intros Hn Hacc. unfold norm_step.
  destruct (String.eqb_spec comp EmptyString) as [| He]; [exact Hacc |].
  destruct (String.eqb_spec comp ".") as [| Hd]; [exact Hacc |]. simpl.
  destruct (String.eqb_spec comp "..") as [-> | Hdd]; simpl.
  - apply Nat.eqb_neq in Hn. rewrite Hn. simpl.
    destruct acc as [| a acc]; [exact Hacc |].
    destruct (exists_last (l := a :: acc)) as (l' & z & E); [discriminate |].
    simpl is_nil. simpl negb. rewrite E in *. unfold last_is_dotdot.
    rewrite last_last, removelast_last.
    apply Forall_app in Hacc as [Hl' Hz].
    apply Forall_inv in Hz. destruct Hz as (Hz & _).
    apply String.eqb_neq in Hz. rewrite Hz. simpl.
    destruct (l' ++ [z])%list; exact Hl'.
  - apply Forall_app. split; [exact Hacc |].
    constructor; [| constructor]. repeat split; assumption.
Qed.

Lemma fold_norm_step_resolved (n : nat) (comps acc : list string) :
  n <> 0%nat -> Forall resolved acc ->
  Forall resolved (fold_left (norm_step n) comps acc).
Proof.
  intros Hn. revert acc.
  induction comps as [| c comps IH]; intros acc Hacc; simpl; [exact Hacc |].
  apply IH. now apply norm_step_resolved.
Qed.

(* normpath resolves every ".", ".." and empty component of an absolute
   path. *)
Lemma normpath_comps_resolved (path : string) :
  isabs path = true -> Forall resolved (normpath_comps path).
Proof.
  intros Habs. unfold normpath_comps.
  apply fold_norm_step_resolved; [| constructor].
  unfold initial_slashes_of. unfold isabs in Habs. rewrite Habs.
  destruct (_ && _); discriminate.
Qed.

Lemma absolute_isabs (cwd path : string) :
  isabs cwd = true -> isabs (absolute cwd path) = true.
Proof.
  intros Hc. unfold absolute. destruct (isabs path) eqn:Hp; [exact Hp |].
  unfold join2. unfold isabs in Hp. rewrite Hp.
  destruct cwd as [| c cwd]; [discriminate |].
  destruct (_ || _); exact Hc.
Qed.

(* The shape of abspath when the working directory is absolute. *)
Lemma abspath_comps (cwd path : string) :
  isabs cwd = true ->
  abspath cwd path
  = slashes (initial_slashes_of (absolute cwd path))
    +:+ join "/" (normpath_comps (absolute cwd path)).
Proof.
  intros Hc. pose proof (absolute_isabs cwd path Hc) as Ha.
  unfold abspath, normpath. unfold isabs in Ha.
  destruct (absolute cwd path) as [| c a] eqn:E; [discriminate |].
  simpl String.eqb. cbv iota zeta.
  assert (Hn : exists k, initial_slashes_of (String c a) = S k).
  { unfold initial_slashes_of. rewrite Ha. destruct (_ && _); eauto. }
  destruct Hn as [k ->]. reflexivity.
Qed.

(* --------------------------------------------------------------------- *)
(*  The sandboxed reader                                                  *)
(* --------------------------------------------------------------------- *)

Lemma read_file_unsafe (w : world) (path : string) :
  path_is_safe w path = false -> read_file w path = (Raise forbidden, []).
Proof. intros H. unfold read_file. now rewrite H. Qed.

Lemma read_file_safe_not_400 (w : world) (path : string) :
  path_is_safe w path = true ->
  forall d, fst (read_file w path) <> Raise (HTTPException 400 d).
Proof.
  intros H d. unfold read_file. rewrite H. simpl.
  destruct (path_exists w path); simpl; [| discriminate].
  destruct (open_read_text w path); simpl; discriminate.
Qed.

Lemma path_is_safe_prefix (w : world) (path : string) :
  path_is_safe w path
  = startswith "/data" (abspath (getcwd w) path)
    || startswith (abspath (getcwd w) "./data") (abspath (getcwd w) path).
Proof. reflexivity. Qed.

(* A normalized path in which "data" does not occur is never let in. *)
Lemma path_without_data_unsafe (w : world) (path : string) :
  str_in "data" (abspath (getcwd w) path) = false ->
  path_is_safe w path = false.
Proof.
  intros H. rewrite path_is_safe_prefix. apply orb_false_iff. split.
  - destruct (startswith "/data" _) eqn:E; [| reflexivity].
    rewrite (str_in_prefix "data" _ _ E eq_refl) in H. discriminate.
  - destruct (startswith (abspath (getcwd w) "./data") _) eqn:E;
      [| reflexivity].
    rewrite (str_in_prefix "data" _ _ E (abspath_dot_data _)) in H.
    discriminate.
Qed.

(** C1, as the code has it. read_file compares the normalized absolute
    path (under an absolute working directory: the leading slashes, then
    components joined by "/", none of them "..", "." or empty) with two
    roots, /data and <working directory>/data. A path whose normalized
    form is one of these directories or lies underneath one of them is
    never answered with the 400 sandbox error. A path whose normalized
    form begins with neither root string is answered with it before the
    filesystem is touched, so whether or not the target exists; that
    holds for every normalized form in which "data" does not occur, and
    so for "/data/../../etc/passwd" on every machine. *)
Theorem read_file_sandbox_check :
  (forall w path,
     isabs (getcwd w) = true ->
     abspath (getcwd w) path
     = slashes (initial_slashes_of (absolute (getcwd w) path))
       +:+ join "/" (normpath_comps (absolute (getcwd w) path))
     /\ Forall resolved (normpath_comps (absolute (getcwd w) path)))
  /\ (forall w path,
     under "/data" (abspath (getcwd w) path) = true
     \/ under (abspath (getcwd w) "./data") (abspath (getcwd w) path) = true ->
     forall d, fst (read_file w path) <> Raise (HTTPException 400 d))
  /\ (forall w path,
        startswith "/data" (abspath (getcwd w) path) = false ->
        startswith (abspath (getcwd w) "./data") (abspath (getcwd w) path)
        = false ->
        read_file w path = (Raise forbidden, []))
  /\ (forall w path,
        str_in "data" (abspath (getcwd w) path) = false ->
        read_file w path = (Raise forbidden, []))
  /\ (forall w,
        abspath (getcwd w) "/data/../../etc/passwd" = "/etc/passwd"
        /\ read_file w "/data/../../etc/passwd" = (Raise forbidden, [])).
Proof.
  split; [| split; [| split; [| split]]].
  - intros w path Hcwd. split; [now apply abspath_comps |].
    now apply normpath_comps_resolved, absolute_isabs.
  - intros w path Hunder. apply read_file_safe_not_400.
    rewrite path_is_safe_prefix. apply orb_true_iff.
    destruct Hunder as [H | H]; [left | right];
      now apply under_startswith.
  - intros w path H1 H2. apply read_file_unsafe.
    rewrite path_is_safe_prefix, H1, H2. reflexivity.
  - intros w path H. apply read_file_unsafe.
    now apply path_without_data_unsafe.
  - intros w. split; [reflexivity |].
    apply read_file_unsafe, path_without_data_unsafe. reflexivity.
Qed.

Lemma read_file_sandbox_check_witness :
  Forall resolved
    (normpath_comps (absolute (getcwd Fixtures.machine)
                              "/data/sub/../plain.txt"))
  /\ (forall d, fst (read_file Fixtures.machine "/data/sub/../plain.txt")
             <> Raise (HTTPException 400 d))
  /\ read_file Fixtures.machine "/data/../database/../etc/hosts"
     = (Raise forbidden, [])
  /\ read_file Fixtures.machine "../etc/shadow" = (Raise forbidden, []).
Proof.
  destruct read_file_sandbox_check as (Hnorm & Hin & Hout & Hnodata & _).
  split; [| split; [| split]].
  - apply (Hnorm Fixtures.machine "/data/sub/../plain.txt"). reflexivity.
  - apply (Hin Fixtures.machine "/data/sub/../plain.txt").
    left. reflexivity.
  - apply (Hout Fixtures.machine "/data/../database/../etc/hosts");
      reflexivity.
  - apply (Hnodata Fixtures.machine "../etc/shadow"). reflexivity.
Defined.

(* Counterexample to C1 as stated. On a machine started in /app,
   /database/x normalizes to itself and data/y to /app/data/y; neither
   lies underneath /data, and both are read: the first because the test
   compares characters, not path components, the second because
   <working directory>/data is a root of its own. *)
Lemma read_file_outside_data_not_rejected :
  abspath (getcwd Fixtures.machine) "/database/x" = "/database/x"
  /\ under "/data" "/database/x" = false
  /\ read_file Fixtures.machine "/database/x"
     = (Return [120], [CallExists "/database/x"; CallOpen "/database/x"])
  /\ abspath (getcwd Fixtures.machine) "data/y" = "/app/data/y"
  /\ under "/data" "/app/data/y" = false
  /\ read_file Fixtures.machine "data/y"
     = (Return [121], [CallExists "data/y"; CallOpen "data/y"]).
Proof. repeat split; reflexivity. Qed.

(** C2. The test of read_file is a comparison of string prefixes against
    "/data" and abspath("./data"). So /database/x and /data/../database/x,
    whose normalized form /database/x is not inside the directory /data,
    pass it on every machine and are not answered with the 400 sandbox
    error; and every path that resolves to <working directory>/data or
    below passes it too. *)
Theorem path_is_safe_string_prefix :
  (forall w path,
     path_is_safe w path
     = startswith "/data" (abspath (getcwd w) path)
       || startswith (abspath (getcwd w) "./data")
                     (abspath (getcwd w) path))
  /\ (forall w path,
        In path ["/database/x"; "/data/../database/x"] ->
        abspath (getcwd w) path = "/database/x"
        /\ under "/data" (abspath (getcwd w) path) = false
        /\ path_is_safe w path = true
        /\ fst (read_file w path) <> Raise forbidden)
  /\ (forall w path,
        under (abspath (getcwd w) "./data") (abspath (getcwd w) path) = true ->
        path_is_safe w path = true
        /\ fst (read_file w path) <> Raise forbidden).
Proof.
  split; [| split].
  - intros w path. apply path_is_safe_prefix.
  - intros w path [<- | [<- | []]];
      (split; [reflexivity |]; split; [reflexivity |];
       split; [reflexivity |];
       apply read_file_safe_not_400; reflexivity).
  - intros w path H.
    assert (Hs : path_is_safe w path = true).
    { rewrite path_is_safe_prefix, (under_startswith _ _ H).
      apply orb_true_r. }
    split; [exact Hs | now apply read_file_safe_not_400].
Qed.

Lemma path_is_safe_string_prefix_witness :
  path_is_safe Fixtures.machine "/data/../database/x" = true
  /\ path_is_safe Fixtures.machine "data/y" = true.
Proof.
  destruct path_is_safe_string_prefix as (_ & Hdb & Hcwd). split.
  - apply (Hdb Fixtures.machine "/data/../database/x").
    simpl. right. left. reflexivity.
  - apply (Hcwd Fixtures.machine "data/y"). reflexivity.
Defined.

(** C9. A path that passes the sandbox test and does not exist is answered
    with 404 "File not found": read_file has asked the filesystem whether
    the path exists and has opened nothing, so what a read would have
    given plays no part. A path that fails the sandbox test is answered
    400 before the existence is asked for. *)
Theorem read_file_not_found (w : world) (path : string) :
  (path_is_safe w path = true ->
   path_exists w path = false ->
   read_file w path
   = (Raise (HTTPException 404 "File not found"), [CallExists path])
   /\ respond (fst (read_file w path))
      = ErrorResponse 404 "File not found"
   /\ forall rd msg,
        read_file (World (getcwd w) (path_exists w) rd msg) path
        = read_file w path)
  /\ (path_is_safe w path = false ->
      read_file w path = (Raise forbidden, [])).
Proof.
  split.
  - intros Hs He.
    assert (H : read_file w path
                = (Raise (HTTPException 404 "File not found"),
                   [CallExists path])).
    { unfold read_file. now rewrite Hs, He. }
    split; [exact H |]. split; [now rewrite H |].
    intros rd msg. rewrite H. unfold read_file.
    change (path_is_safe (World (getcwd w) (path_exists w) rd msg) path)
      with (path_is_safe w path).
    rewrite Hs. simpl. now rewrite He.
  - apply read_file_unsafe.
Qed.

Lemma read_file_not_found_witness :
  read_file Fixtures.machine "/data/missing.txt"
  = (Raise (HTTPException 404 "File not found"),
     [CallExists "/data/missing.txt"])
  /\ read_file Fixtures.machine "/etc/missing.txt" = (Raise forbidden, []).
Proof.
  split.
  - apply (proj1 (read_file_not_found Fixtures.machine "/data/missing.txt"));
      reflexivity.
  - apply (proj2 (read_file_not_found Fixtures.machine "/etc/missing.txt")).
    reflexivity.
Defined.

(* --------------------------------------------------------------------- *)
(*  Reading text: decoding, newlines, and the way back                    *)
(* --------------------------------------------------------------------- *)

Ltac split_bools :=
  repeat match goal with
  | H : _ && _ = true |- _ => apply andb_true_iff in H; destruct H
  | H : negb _ = true |- _ => apply negb_true_iff in H
  | H : (_ <=? _) = true |- _ => apply Z.leb_le in H
  | H : (_ <? _) = true |- _ => apply Z.ltb_lt in H
  | H : (_ <=? _) = false |- _ => apply Z.leb_gt in H
  | H : (_ <? _) = false |- _ => apply Z.ltb_ge in H
  end.

Ltac decide_tests :=
  repeat match goal with
  | |- context [?a <=? ?b] => destruct (Z.leb_spec a b); try lia
  | |- context [?a <? ?b] => destruct (Z.ltb_spec a b); try lia
  end.

Ltac div_lia := Z.div_mod_to_equations; lia.

Lemma encode_cp_1 (b0 : Z) :
  0 <= b0 < 128 -> Utf8.encode_cp b0 = Some [b0].
Proof. intros H. unfold Utf8.encode_cp. decide_tests. reflexivity. Qed.

Lemma encode_cp_2 (b0 b1 : Z) :
  192 <= b0 < 224 -> 128 <= b1 <= 191 ->
  128 <= (b0 - 192) * 64 + (b1 - 128) ->
  Utf8.encode_cp ((b0 - 192) * 64 + (b1 - 128)) = Some [b0; b1].
Proof.
  intros H0 H1 Hcp. unfold Utf8.encode_cp.
  remember ((b0 - 192) * 64 + (b1 - 128)) as cp eqn:E.
  decide_tests. simpl. repeat f_equal; div_lia.
Qed.

Lemma encode_cp_3 (b0 b1 b2 : Z) :
  224 <= b0 < 240 -> 128 <= b1 <= 191 -> 128 <= b2 <= 191 ->
  2048 <= (b0 - 224) * 4096 + (b1 - 128) * 64 + (b2 - 128) ->
  Utf8.surrogate ((b0 - 224) * 4096 + (b1 - 128) * 64 + (b2 - 128)) = false ->
  Utf8.encode_cp ((b0 - 224) * 4096 + (b1 - 128) * 64 + (b2 - 128))
  = Some [b0; b1; b2].
Proof.
  intros H0 H1 H2 Hcp Hs. unfold Utf8.encode_cp. rewrite Hs.
  remember ((b0 - 224) * 4096 + (b1 - 128) * 64 + (b2 - 128)) as cp eqn:E.
  clear Hs. decide_tests. simpl. repeat f_equal; div_lia.
Qed.

Lemma encode_cp_4 (b0 b1 b2 b3 : Z) :
  240 <= b0 < 248 -> 128 <= b1 <= 191 -> 128 <= b2 <= 191 ->
  128 <= b3 <= 191 ->
  65536 <= (b0 - 240) * 262144 + (b1 - 128) * 4096 + (b2 - 128) * 64
           + (b3 - 128) <= 1114111 ->
  Utf8.encode_cp ((b0 - 240) * 262144 + (b1 - 128) * 4096 + (b2 - 128) * 64
                  + (b3 - 128))
  = Some [b0; b1; b2; b3].
Proof.
  intros H0 H1 H2 H3 Hcp. unfold Utf8.encode_cp.
  remember ((b0 - 240) * 262144 + (b1 - 128) * 4096 + (b2 - 128) * 64
            + (b3 - 128)) as cp eqn:E.
  decide_tests. simpl. repeat f_equal; div_lia.
Qed.

(* Close the five parts of decode_inv once the code point, its bytes and
   the rest are named; enc proves the encoding of the code point. *)
Ltac decoded_as enc :=
  split; [reflexivity |]; split; [reflexivity |]; split; [enc |];
  split; [simpl; lia | assumption].

(* One step of the decoder: the first code point, the bytes it came
   from, and the rest. *)
Lemma decode_inv (bs s : list Z) :
  Utf8.decode bs = Some s ->
  (bs = [] /\ s = [])
  \/ exists cp enc rest s',
       bs = (enc ++ rest)%list /\ s = cp :: s'
       /\ Utf8.encode_cp cp = Some enc
       /\ (List.length rest < List.length bs)%nat
       /\ Utf8.decode rest = Some s'.
Proof.
  destruct bs as [| b0 r0]; simpl.
  - intros [= <-]. now left.
  - intros H. right.
    destruct ((0 <=? b0) && (b0 <? 128)) eqn:E1.
    { destruct (Utf8.decode r0) as [s' |] eqn:D; [| discriminate].
      injection H as <-. split_bools.
      exists b0, [b0], r0, s'. decoded_as ltac:(apply encode_cp_1; lia). }
    destruct ((192 <=? b0) && (b0 <? 224)) eqn:E2.
    { destruct r0 as [| b1 r1]; [discriminate |].
      destruct (Utf8.cont b1 && _) eqn:C; [| discriminate].
      destruct (Utf8.decode r1) as [s' |] eqn:D; [| discriminate].
      injection H as <-. unfold Utf8.cont in C. split_bools.
      exists ((b0 - 192) * 64 + (b1 - 128)), [b0; b1], r1, s'.
      decoded_as ltac:(apply encode_cp_2; lia). }
    destruct ((224 <=? b0) && (b0 <? 240)) eqn:E3.
    { destruct r0 as [| b1 [| b2 r2]]; try discriminate.
      destruct (Utf8.cont b1 && _ && _ && _) eqn:C; [| discriminate].
      destruct (Utf8.decode r2) as [s' |] eqn:D; [| discriminate].
      injection H as <-. unfold Utf8.cont in C. split_bools.
      exists ((b0 - 224) * 4096 + (b1 - 128) * 64 + (b2 - 128)),
             [b0; b1; b2], r2, s'.
      decoded_as ltac:(apply encode_cp_3; try lia; assumption). }
    destruct ((240 <=? b0) && (b0 <? 248)) eqn:E4; [| discriminate].
    destruct r0 as [| b1 [| b2 [| b3 r3]]]; try discriminate.
    destruct (Utf8.cont b1 && _ && _ && _ && _) eqn:C; [| discriminate].
    destruct (Utf8.decode r3) as [s' |] eqn:D; [| discriminate].
    injection H as <-. unfold Utf8.cont in C. split_bools.
    exists ((b0 - 240) * 262144 + (b1 - 128) * 4096 + (b2 - 128) * 64
            + (b3 - 128)), [b0; b1; b2; b3], r3, s'.
    decoded_as ltac:(apply encode_cp_4; lia).
Qed.

(* Encoding what was decoded gives the bytes back. *)
Lemma decode_encode (bs s : list Z) :
  Utf8.decode bs = Some s -> Utf8.encode s = Some bs.
Proof.
  remember (List.length bs) as n eqn:Hn. revert bs s Hn.
  induction n as [n IH] using lt_wf_ind. intros bs s Hn H.
  destruct (decode_inv _ _ H)
    as [[-> ->] | (cp & enc & rest & s' & -> & -> & He & Hlen & Hd)];
    [reflexivity |].
  simpl. rewrite He.
  rewrite (IH (List.length rest) ltac:(lia) rest s' eq_refl Hd).
  reflexivity.
Qed.

(* A carriage return in the text was a byte 13 of the file. *)
Lemma decode_no_cr (bs s : list Z) :
  Utf8.decode bs = Some s -> ~ In 13 bs -> ~ In 13 s.
Proof.
  remember (List.length bs) as n eqn:Hn. revert bs s Hn.
  induction n as [n IH] using lt_wf_ind. intros bs s Hn H Hbs.
  destruct (decode_inv _ _ H)
    as [[-> ->] | (cp & enc & rest & s' & -> & -> & He & Hlen & Hd)];
    [exact Hbs |].
  intros [-> | Hin].
  - vm_compute in He. injection He as <-. apply Hbs. now left.
  - apply (IH (List.length rest) ltac:(lia) rest s' eq_refl Hd); [| exact Hin].
    intros Hr. apply Hbs. apply in_or_app. now right.
Qed.

Lemma translate_newlines_no_cr (s : list Z) :
  ~ In 13 s -> Utf8.translate_newlines s = s.
Proof.
  induction s as [| c s IH]; [reflexivity |].
  intros H. cbn [Utf8.translate_newlines].
  destruct (Z.eqb_spec c 13) as [-> | _].
  - exfalso. apply H. now left.
  - rewrite IH; [reflexivity |]. intros Hin. apply H. now right.
Qed.

(** C10, as the code has it. For a path that passes the sandbox test and
    exists: when the file can be opened and read and its bytes are valid
    UTF-8, read_file returns the text of the whole file, decoded and with
    every "\r\n" and "\r" turned into "\n", after one existence test and
    one open; when besides the file holds no byte 13, the body of the
    response is byte for byte the content of the file. When the open or
    the read fails or the bytes are not valid UTF-8, /read answers 500
    with the message of the failure. *)
Theorem read_file_content (w : world) (path : string) :
  path_is_safe w path = true ->
  path_exists w path = true ->
  (forall bs s,
     read_bytes w path = Bytes bs -> Utf8.decode bs = Some s ->
     read_file w path
     = (Return (Utf8.translate_newlines s), [CallExists path; CallOpen path])
     /\ body_bytes s = Some bs
     /\ (~ In 13 bs ->
         read_file w path = (Return s, [CallExists path; CallOpen path])
         /\ body_bytes (Utf8.translate_newlines s) = Some bs))
  /\ (forall bs,
        read_bytes w path = Bytes bs -> Utf8.decode bs = None ->
        read_file w path
        = (Raise (HTTPException 500 (str_decode_error w bs)),
           [CallExists path; CallOpen path]))
  /\ (forall str_e,
        read_bytes w path = IOFailure str_e ->
        read_file w path
        = (Raise (HTTPException 500 str_e),
           [CallExists path; CallOpen path])).
Proof.
  intros Hs He. unfold read_file, open_read_text. rewrite Hs, He. simpl.
  split; [| split].
  - intros bs s Hb Hd. rewrite Hb, Hd.
    split; [reflexivity |]. split; [now apply decode_encode |].
    intros Hcr.
    rewrite (translate_newlines_no_cr s (decode_no_cr _ _ Hd Hcr)).
    split; [reflexivity | now apply decode_encode].
  - intros bs Hb Hd. now rewrite Hb, Hd.
  - intros str_e Hb. now rewrite Hb.
Qed.

Lemma read_file_content_witness :
  read_file Fixtures.machine "/data/plain.txt"
  = (Return [104; 105; 10],
     [CallExists "/data/plain.txt"; CallOpen "/data/plain.txt"])
  /\ body_bytes [104; 105; 10] = Some [104; 105; 10]
  /\ read_file Fixtures.machine "/data/latin1.txt"
     = (Raise (HTTPException 500 "'utf-8' codec can't decode bytes"),
        [CallExists "/data/latin1.txt"; CallOpen "/data/latin1.txt"])
  /\ read_file Fixtures.machine "/data"
     = (Raise (HTTPException 500 "[Errno 21] Is a directory: '/data'"),
        [CallExists "/data"; CallOpen "/data"]).
Proof.
  destruct (proj1 (read_file_content Fixtures.machine "/data/plain.txt"
                     eq_refl eq_refl) [104; 105; 10] [104; 105; 10]
                  eq_refl eq_refl) as (Hread & Hbody & _).
  split; [exact Hread |]. split; [exact Hbody |]. split.
  - apply (proj1 (proj2 (read_file_content Fixtures.machine
                           "/data/latin1.txt" eq_refl eq_refl)) [233]);
      reflexivity.
  - apply (proj2 (proj2 (read_file_content Fixtures.machine "/data"
                           eq_refl eq_refl))). reflexivity.
Defined.

(* Counterexample to C10 as stated. /data/notes.txt is inside the
   sandbox, exists and holds the four bytes of "a\r\nb"; read_file
   returns "a\nb", whose encoding has three bytes. /data itself is
   inside the sandbox and exists, and reading it gives 500. *)
Lemma read_file_not_byte_for_byte :
  path_is_safe Fixtures.machine "/data/notes.txt" = true
  /\ path_exists Fixtures.machine "/data/notes.txt" = true
  /\ read_bytes Fixtures.machine "/data/notes.txt" = Bytes [97; 13; 10; 98]
  /\ fst (read_file Fixtures.machine "/data/notes.txt") = Return [97; 10; 98]
  /\ body_bytes [97; 10; 98] = Some [97; 10; 98]
  /\ body_bytes [97; 10; 98] <> Some [97; 13; 10; 98]
  /\ path_is_safe Fixtures.machine "/data" = true
  /\ path_exists Fixtures.machine "/data" = true
  /\ fst (read_file Fixtures.machine "/data")
     = Raise (HTTPException 500 "[Errno 21] Is a directory: '/data'").
Proof. repeat split; try reflexivity. discriminate. Qed.

(* ===================================================================== *)
(*  Further properties of main.py                                         *)
(* ===================================================================== *)

(* --------------------------------------------------------------------- *)
(*  classify_task: case, priority, and what a result tells                *)
(* --------------------------------------------------------------------- *)

Lemma lower_char_idem (c : ascii) : lower_char (lower_char c) = lower_char c.
Proof. destruct c as [[] [] [] [] [] [] [] []]; reflexivity. Qed.

Lemma lower_idem (s : string) : lower (lower s) = lower s.
Proof.
  induction s as [| c s IH]; simpl; [reflexivity |].
  now rewrite lower_char_idem, IH.
Qed.

Lemma lower_app (a b : string) : lower (a +:+ b) = lower a +:+ lower b.
Proof.
  induction a as [| c a IH]; [reflexivity |].
  change (String (lower_char c) (lower (a +:+ b))
          = String (lower_char c) (lower a +:+ lower b)).
  now rewrite IH.
Qed.

Lemma startswith_append (p r : string) : startswith p (p +:+ r) = true.
Proof.
  induction p as [| a p IH]; [reflexivity |].
  change (Ascii.eqb a a && startswith p (p +:+ r) = true).
  now rewrite Ascii.eqb_refl, IH.
Qed.

Lemma str_in_append (x post : string) : str_in x (x +:+ post) = true.
Proof.
  destruct (x +:+ post) eqn:E; unfold str_in; fold str_in;
    rewrite <- E, startswith_append; reflexivity.
Qed.

(* needle in pre + needle + post *)
Lemma str_in_middle (pre x post : string) :
  str_in x (pre +:+ x +:+ post) = true.
Proof. apply str_in_app_skip, str_in_append. Qed.

(* What needle in hay means. *)
Lemma str_in_spec (x s : string) :
  str_in x s = true <-> exists pre post, s = pre +:+ x +:+ post.
Proof.
  split.
  - induction s as [| c s IH].
    + simpl. rewrite orb_false_r. intros H.
      destruct x; [| discriminate]. now exists EmptyString, EmptyString.
    + intros H. unfold str_in in H; fold str_in in H.
      apply orb_true_iff in H as [H | H].
      * exists EmptyString.
        assert (Hp : forall p t, startswith p t = true ->
                                 exists r, t = p +:+ r).
        { clear. induction p as [| a p IHp]; intros t Ht.
          - now exists t.
          - destruct t as [| b t]; [discriminate |]. simpl in Ht.
            apply andb_true_iff in Ht as [Hab Ht].
            apply Ascii.eqb_eq in Hab. subst b.
            destruct (IHp t Ht) as [r ->]. now exists r. }
        destruct (Hp _ _ H) as [r Hr]. now exists r.
      * destruct (IH H) as (pre & post & ->).
        now exists (String c pre), post.
  - intros (pre & post & ->). apply str_in_middle.
Qed.

Lemma first_match_Some (rs : list (cond * string)) (text cat : string) :
  first_match rs text = Some cat ->
  exists i c, nth_error rs i = Some (c, cat)
    /\ holds c text = true
    /\ first_match (firstn i rs) text = None.
Proof.
  induction rs as [| [c0 cat0] rs IH]; simpl; [discriminate |].
  destruct (holds c0 text) eqn:Hc.
  - intros [= <-]. now exists 0%nat, c0.
  - intros H. destruct (IH H) as (i & c & Hi & Hh & Hn).
    exists (S i), c. simpl. now rewrite Hc.
Qed.

(** X1. classify_task sees the text through task.lower() only, and
    lowering twice is lowering once: a text and its lowercased form are
    classified alike, category or refusal. *)
Theorem classify_task_of_lower (text : string) :
  classify_task (lower text) = classify_task text.
Proof. apply classify_task_lower, lower_idem. Qed.

(** X2. The first branch wins over all others: a text in which
    "datagen.py" or "install uv" occurs, in whatever letter case and
    whatever stands before and after it, is classified A1. *)
Theorem classify_task_A1_first (pre mid post : string) :
  lower mid = "datagen.py" \/ lower mid = "install uv" ->
  classify_task (pre +:+ mid +:+ post) = Return "A1".
Proof.
  intros H. unfold classify_task. rewrite !lower_app. cbv zeta.
  destruct H as [-> | ->].
  - now rewrite str_in_middle.
  - rewrite (str_in_middle (lower pre) "install uv"). now rewrite orb_true_r.
Qed.

Lemma classify_task_A1_first_witness :
  classify_task
    ("Fetch data from the API, run a SQL query, then " +:+ "Install UV"
     +:+ " and scrape the website") = Return "A1".
Proof.
  apply (classify_task_A1_first
           "Fetch data from the API, run a SQL query, then "
           "Install UV" " and scrape the website").
  right. reflexivity.
Defined.

(** X3. What a result tells: when classify_task returns a category, the
    condition of the branch of that category holds on the lowercased
    text and the condition of every branch above it fails. *)
Theorem classify_task_result_branch (text cat : string) :
  classify_task text = Return cat ->
  exists i c,
    nth_error rules i = Some (c, cat)
    /\ holds c (lower text) = true
    /\ forall j c' cat', (j < i)%nat ->
         nth_error rules j = Some (c', cat') ->
         holds c' (lower text) = false.
Proof.
  rewrite classify_task_first_match. unfold Rules.classify.
  destruct (first_match rules (lower text)) as [cat0 |] eqn:E;
    [| discriminate].
  intros [= <-].
  destruct (first_match_Some _ _ _ E) as (i & c & Hi & Hh & Hn).
  exists i, c. split; [exact Hi |]. split; [exact Hh |].
  intros j c' cat' Hj Hnth.
  rewrite first_match_None in Hn. apply (Hn c' cat').
  apply (nth_error_In _ j). rewrite nth_error_firstn.
  destruct (Nat.ltb_spec j i); [exact Hnth | lia].
Qed.

Lemma classify_task_result_branch_witness :
  exists i c,
    nth_error rules i = Some (c, "B9")
    /\ holds c (lower "Convert Markdown to HTML") = true
    /\ forall j c' cat', (j < i)%nat ->
         nth_error rules j = Some (c', cat') ->
         holds c' (lower "Convert Markdown to HTML") = false.
Proof.
  apply (classify_task_result_branch "Convert Markdown to HTML" "B9").
  reflexivity.
Defined.

(** X4. The keys of task_mapping are exactly the categories classify_task
    can return: every key is returned for some text, so no registered
    task function is out of reach of /run. *)
Theorem task_mapping_keys_reached (key : string) :
  is_Some (task_mapping !! key)
  <-> exists text, classify_task text = Return key.
Proof.
  split.
  - intros [f Hf]. unfold task_mapping in Hf.
    apply elem_of_list_to_map_2 in Hf.
    repeat (apply elem_of_cons in Hf as [[= -> ->] | Hf];
            [match goal with
             | |- exists _, _ = Return ?k =>
                 let t := eval vm_compute in
                   (hd EmptyString
                      (map fst (filter (fun tc => String.eqb (snd tc) k)
                                       trigger_texts)))
                 in exists t; reflexivity
             end |]).
    inversion Hf.
  - intros [text H]. exact (classify_task_in_mapping _ _ H).
Qed.

Lemma task_mapping_keys_reached_witness :
  exists text, classify_task text = Return "B10".
Proof.
  apply (proj1 (task_mapping_keys_reached "B10")).
  exists task_B10_filter_csv. reflexivity.
Defined.

(* --------------------------------------------------------------------- *)
(*  task_mapping and run_task: the table, containment of failures         *)
(* --------------------------------------------------------------------- *)

Lemma task_mapping_entries (key : string) (f : task_fn) :
  task_mapping !! key = Some f ->
  In (key, f)
    [ ("A1", task_A1_install_and_run_datagen);
      ("A2", task_A2_format_markdown);
      ("A3", task_A3_count_weekdays);
      ("A4", task_A4_sort_contacts);
      ("A5", task_A5_recent_log_lines);
      ("A6", task_A6_extract_markdown_titles);
      ("A7", task_A7_extract_email_sender);
      ("A8", task_A8_extract_credit_card);
      ("A9", task_A9_find_similar_comments);
      ("A10", task_A10_compute_gold_ticket_sales);
      ("B3", task_B3_fetch_api_data);
      ("B4", task_B4_clone_and_commit);
      ("B5", task_B5_run_sql_query);
      ("B6", task_B6_scrape_website);
      ("B7", task_B7_process_image);
      ("B8", task_B8_transcribe_audio);
      ("B9", task_B9_convert_markdown_to_html);
      ("B10", task_B10_filter_csv) ].
Proof.
  intros H. apply elem_of_list_to_map_2 in H.
  now apply list_elem_of_In in H.
Qed.

(** X5. task_mapping pairs the eighteen keys with the eighteen imported
    task functions one to one: every imported function is registered, and
    no function is registered under two keys. *)
Theorem task_mapping_one_to_one :
  size task_mapping = 18%nat
  /\ (forall f : task_fn, exists key, task_mapping !! key = Some f)
  /\ (forall key1 key2 f,
        task_mapping !! key1 = Some f -> task_mapping !! key2 = Some f ->
        key1 = key2).
Proof.
  split; [| split].
  - vm_compute. reflexivity.
  - intros f.
    destruct f;
      match goal with
      | |- exists _, _ = Some ?g =>
          first [ exists "A1"; reflexivity | exists "A2"; reflexivity
                | exists "A3"; reflexivity | exists "A4"; reflexivity
                | exists "A5"; reflexivity | exists "A6"; reflexivity
                | exists "A7"; reflexivity | exists "A8"; reflexivity
                | exists "A9"; reflexivity | exists "A10"; reflexivity
                | exists "B3"; reflexivity | exists "B4"; reflexivity
                | exists "B5"; reflexivity | exists "B6"; reflexivity
                | exists "B7"; reflexivity | exists "B8"; reflexivity
                | exists "B9"; reflexivity | exists "B10"; reflexivity ]
      end.
  - intros key1 key2 f H1 H2.
    apply task_mapping_entries in H1, H2. simpl in H1, H2.
    repeat (destruct H1 as [H1 | H1];
            [injection H1 as <- <-;
             repeat (destruct H2 as [H2 | H2];
                     [try discriminate H2; inversion H2; reflexivity |]);
             destruct H2 |]).
    destruct H1.
Qed.

Lemma task_mapping_one_to_one_witness :
  "B5" = "B5".
Proof.
  apply (proj2 (proj2 task_mapping_one_to_one) "B5" "B5"
               task_B5_run_sql_query); reflexivity.
Defined.

Section RunMore.

Context {P S : Type}.
Variable invoke : task_fn -> S -> outcome P * S.

(** X6. run_task lets no exception out that is an Exception without being
    an HTTPException: whatever the task function raises of that kind,
    and the KeyError of a missing key, leave as HTTPException; so /run
    answers every such failure itself. *)
Theorem run_task_contains_exceptions (text : string) (s : S) :
  (forall str_e, fst (run_task invoke text s) <> Raise (Exception str_e))
  /\ match respond (fst (run_task invoke text s)) with
     | Ok200 e => status e = "success"
     | ErrorResponse _ _ => True
     | Unhandled e => exists str_e, e = BaseException str_e
     end.
Proof.
  unfold run_task.
  destruct (run_task_try invoke text s) as [[e | [code d | m | m]] s'] eqn:E;
    simpl; (split; [intros str_e; discriminate |]); try exact I.
  - unfold run_task_try in E.
    destruct (classify_task text) as [cat |]; [| discriminate].
    destruct (task_mapping !! cat); [| discriminate].
    destruct (invoke t s) as [[r | e'] s'']; [| discriminate].
    now injection E as <- _.
  - now exists m.
Qed.

(** X7. A success envelope is never made up: when run_task returns one,
    its status is "success", its task is the category of the text, and
    its result is the payload that the task function registered under
    that category has just returned. *)
Theorem run_task_success_inv (text : string) (s s' : S)
    (e : envelope P) :
  run_task invoke text s = (Return e, s') ->
  status e = "success"
  /\ classify_task text = Return (task e)
  /\ exists f, task_mapping !! task e = Some f
       /\ invoke f s = (Return (result e), s').
Proof.
  unfold run_task, run_task_try.
  destruct (classify_task text) as [cat | [code d | m | m]]; try discriminate.
  destruct (task_mapping !! cat) as [f |] eqn:Hf; [| discriminate].
  destruct (invoke f s) as [[r | [code d | m | m]] s''] eqn:Hi;
    try discriminate.
  intros [= <- <-]. simpl. repeat split. exists f. now split.
Qed.

(** X8. run_task calls one task function at most, and calls it once: for
    a text that is not recognized the machine is left as it was, and for
    a classified text it is left as the registered function left it,
    whether the function returned or raised. *)
Theorem run_task_final_state (text : string) (s : S) :
  match classify_task text with
  | Raise _ => snd (run_task invoke text s) = s
  | Return cat =>
      exists f, task_mapping !! cat = Some f
        /\ snd (run_task invoke text s) = snd (invoke f s)
  end.
Proof.
  destruct (classify_task text) as [cat | e] eqn:Hc.
  - destruct (run_task_try_classified invoke text cat s Hc)
      as (f & Hf & Hrun).
    exists f. split; [exact Hf |]. unfold run_task. rewrite Hrun.
    destruct (invoke f s) as [[r | [code d | m | m]] s']; reflexivity.
  - unfold run_task, run_task_try. rewrite Hc.
    destruct e; reflexivity.
Qed.

End RunMore.

Lemma run_task_success_inv_witness :
  status (Envelope "success" "A1" "done") = "success"
  /\ classify_task "Install uv first" = Return "A1".
Proof.
  destruct (run_task_success_inv Fixtures.returns_done "Install uv first"
              0%nat 1%nat (Envelope "success" "A1" "done") eq_refl)
    as (Hs & Hc & _).
  split; [exact Hs | exact Hc].
Defined.

(* --------------------------------------------------------------------- *)
(*  read_file: what it touches and what it hands back                     *)
(* --------------------------------------------------------------------- *)



Lemma encode_cp_scalar (cp : Z) (enc : list Z) :
  Utf8.encode_cp cp = Some enc -> scalar cp.
Proof.
  unfold Utf8.encode_cp, Utf8.surrogate, scalar.
  repeat match goal with
  | |- context [?a <=? ?b] => destruct (Z.leb_spec a b)
  | |- context [?a <? ?b] => destruct (Z.ltb_spec a b)
  end; simpl; intros Henc; try discriminate; lia.
Qed.

Lemma scalar_encode_cp (cp : Z) :
  scalar cp -> exists enc, Utf8.encode_cp cp = Some enc.
Proof.
  unfold Utf8.encode_cp, Utf8.surrogate, scalar. intros H.
  repeat match goal with
  | |- context [?a <=? ?b] => destruct (Z.leb_spec a b)
  | |- context [?a <? ?b] => destruct (Z.ltb_spec a b)
  end; simpl; try lia; eauto.
Qed.

(* The decoder yields scalar values only. *)
Lemma decode_scalars (bs s : list Z) :
  Utf8.decode bs = Some s -> Forall scalar s.
Proof.
  remember (List.length bs) as n eqn:Hn. revert bs s Hn.
  induction n as [n IH] using lt_wf_ind. intros bs s Hn H.
  destruct (decode_inv _ _ H)
    as [[-> ->] | (cp & enc & rest & s' & -> & -> & He & Hlen & Hd)];
    [constructor |].
  constructor; [now apply (encode_cp_scalar cp enc) |].
  apply (IH (List.length rest) ltac:(lia) rest s' eq_refl Hd).
Qed.

Lemma encode_scalars (s : list Z) :
  Forall scalar s -> exists bs, Utf8.encode s = Some bs.
Proof.
  induction 1 as [| cp s Hcp _ [bs IH]]; [now exists [] |].
  destruct (scalar_encode_cp cp Hcp) as [enc He].
  exists (enc ++ bs)%list. simpl. now rewrite He, IH.
Qed.

(* Universal newlines leave no carriage return and bring in nothing but
   line feeds. *)
Lemma translate_newlines_spec (P : Z -> Prop) (s : list Z) :
  P 10 -> Forall P s ->
  ~ In 13 (Utf8.translate_newlines s)
  /\ Forall P (Utf8.translate_newlines s).
Proof.
  intros H10. remember (List.length s) as n eqn:Hn. revert s Hn.
  induction n as [n IH] using lt_wf_ind. intros s Hn Hs.
  destruct s as [| c s]; [split; [intros [] | constructor] |].
  apply Forall_cons in Hs as [Hc Hs]. cbn [Utf8.translate_newlines].
  destruct (Z.eqb_spec c 13) as [-> | Hne].
  - destruct s as [| d s]; [split; [intros [[=] | []] | now repeat constructor] |].
    apply Forall_cons in Hs as [Hd Hs'].
    destruct (Z.eqb_spec d 10) as [-> | Hd10].
    + destruct (IH (List.length s) ltac:(simpl in Hn; lia) s eq_refl Hs')
        as [Hno Hall].
      split; [intros [[=] | Hin]; now apply Hno | now constructor].
    + destruct (IH (List.length (d :: s)) ltac:(simpl in *; lia)
                   (d :: s) eq_refl ltac:(now constructor)) as [Hno Hall].
      split; [intros [[=] | Hin]; now apply Hno | now constructor].
  - destruct (IH (List.length s) ltac:(simpl in Hn; lia) s eq_refl Hs)
      as [Hno Hall].
    split; [intros [-> | Hin]; [now apply Hne | now apply Hno]
           | now constructor].
Qed.

(** X10. Content that read_file returns holds no carriage return, is made
    of Unicode scalar values only, and so can always be encoded into the
    body of the response. *)
Theorem read_file_content_clean (w : world) (path : string)
    (content : list Z) :
  fst (read_file w path) = Return content ->
  ~ In 13 content
  /\ Forall scalar content
  /\ exists body, body_bytes content = Some body.
Proof.
  unfold read_file, open_read_text.
  destruct (path_is_safe w path); [| discriminate].
  destruct (path_exists w path); [| discriminate]. simpl.
  destruct (read_bytes w path) as [bs | m]; [| discriminate].
  destruct (Utf8.decode bs) as [s |] eqn:Hd; [| discriminate].
  simpl. intros [= <-].
  assert (H10 : scalar 10) by (unfold scalar; lia).
  destruct (translate_newlines_spec scalar s H10 (decode_scalars _ _ Hd))
    as [Hno Hall].
  split; [exact Hno |]. split; [exact Hall |].
  unfold body_bytes. now apply encode_scalars.
Qed.

Lemma read_file_content_clean_witness :
  ~ In 13 [97; 10; 98] /\ Forall scalar [97; 10; 98]
  /\ exists body, body_bytes [97; 10; 98] = Some body.
Proof.
  apply (read_file_content_clean Fixtures.machine "/data/notes.txt").
  reflexivity.
Defined.

(* --------------------------------------------------------------------- *)
(*  Writing a text, then reading it                                       *)
(* --------------------------------------------------------------------- *)

Lemma decode_cons (b0 : Z) (r0 : list Z) :
  Utf8.decode (b0 :: r0)
  = if (0 <=? b0) && (b0 <? 128) then
      option_map (cons b0) (Utf8.decode r0)
    else if (192 <=? b0) && (b0 <? 224) then
      match r0 with
      | b1 :: r1 =>
          let cp := (b0 - 192) * 64 + (b1 - 128) in
          if Utf8.cont b1 && (128 <=? cp)
          then option_map (cons cp) (Utf8.decode r1)
          else None
      | _ => None
      end
    else if (224 <=? b0) && (b0 <? 240) then
      match r0 with
      | b1 :: b2 :: r2 =>
          let cp := (b0 - 224) * 4096 + (b1 - 128) * 64 + (b2 - 128) in
          if Utf8.cont b1 && Utf8.cont b2 && (2048 <=? cp)
             && negb (Utf8.surrogate cp)
          then option_map (cons cp) (Utf8.decode r2)
          else None
      | _ => None
      end
    else if (240 <=? b0) && (b0 <? 248) then
      match r0 with
      | b1 :: b2 :: b3 :: r3 =>
          let cp := (b0 - 240) * 262144 + (b1 - 128) * 4096
                    + (b2 - 128) * 64 + (b3 - 128) in
          if Utf8.cont b1 && Utf8.cont b2 && Utf8.cont b3
             && (65536 <=? cp) && (cp <=? 1114111)
          then option_map (cons cp) (Utf8.decode r3)
          else None
      | _ => None
      end
    else None.
Proof. reflexivity. Qed.

Lemma test_false_r (a b : bool) : b = false -> a && b = false.
Proof. intros ->. apply andb_false_r. Qed.

Lemma test_true (a b : bool) : a = true -> b = true -> a && b = true.
Proof. now intros -> ->. Qed.

Lemma cont_true (b : Z) : 128 <= b <= 191 -> Utf8.cont b = true.
Proof. intros H. unfold Utf8.cont. apply test_true; lia. Qed.

Lemma decode_1 (b0 : Z) (rest : list Z) :
  0 <= b0 < 128 ->
  Utf8.decode (b0 :: rest) = option_map (cons b0) (Utf8.decode rest).
Proof.
  intros H. rewrite decode_cons.
  rewrite (test_true (0 <=? b0) (b0 <? 128)) by lia. reflexivity.
Qed.

Lemma decode_2 (b0 b1 : Z) (rest : list Z) :
  192 <= b0 < 224 -> 128 <= b1 <= 191 ->
  128 <= (b0 - 192) * 64 + (b1 - 128) ->
  Utf8.decode (b0 :: b1 :: rest)
  = option_map (cons ((b0 - 192) * 64 + (b1 - 128))) (Utf8.decode rest).
Proof.
  intros H0 H1 Hcp. rewrite decode_cons.
  rewrite (test_false_r (0 <=? b0) (b0 <? 128)) by lia.
  rewrite (test_true (192 <=? b0) (b0 <? 224)) by lia.
  cbv zeta. rewrite (cont_true b1 H1).
  rewrite (proj2 (Z.leb_le _ _) Hcp). reflexivity.
Qed.

Lemma decode_3 (b0 b1 b2 : Z) (rest : list Z) :
  224 <= b0 < 240 -> 128 <= b1 <= 191 -> 128 <= b2 <= 191 ->
  2048 <= (b0 - 224) * 4096 + (b1 - 128) * 64 + (b2 - 128) ->
  Utf8.surrogate ((b0 - 224) * 4096 + (b1 - 128) * 64 + (b2 - 128)) = false ->
  Utf8.decode (b0 :: b1 :: b2 :: rest)
  = option_map (cons ((b0 - 224) * 4096 + (b1 - 128) * 64 + (b2 - 128)))
               (Utf8.decode rest).
Proof.
  intros H0 H1 H2 Hcp Hs. rewrite decode_cons.
  rewrite (test_false_r (0 <=? b0) (b0 <? 128)) by lia.
  rewrite (test_false_r (192 <=? b0) (b0 <? 224)) by lia.
  rewrite (test_true (224 <=? b0) (b0 <? 240)) by lia.
  cbv zeta. rewrite (cont_true b1 H1), (cont_true b2 H2), Hs.
  rewrite (proj2 (Z.leb_le _ _) Hcp). reflexivity.
Qed.

Lemma decode_4 (b0 b1 b2 b3 : Z) (rest : list Z) :
  240 <= b0 < 248 -> 128 <= b1 <= 191 -> 128 <= b2 <= 191 ->
  128 <= b3 <= 191 ->
  65536 <= (b0 - 240) * 262144 + (b1 - 128) * 4096 + (b2 - 128) * 64
           + (b3 - 128) <= 1114111 ->
  Utf8.decode (b0 :: b1 :: b2 :: b3 :: rest)
  = option_map (cons ((b0 - 240) * 262144 + (b1 - 128) * 4096
                      + (b2 - 128) * 64 + (b3 - 128)))
               (Utf8.decode rest).
Proof.
  intros H0 H1 H2 H3 [Hlo Hhi]. rewrite decode_cons.
  rewrite (test_false_r (0 <=? b0) (b0 <? 128)) by lia.
  rewrite (test_false_r (192 <=? b0) (b0 <? 224)) by lia.
  rewrite (test_false_r (224 <=? b0) (b0 <? 240)) by lia.
  rewrite (test_true (240 <=? b0) (b0 <? 248)) by lia.
  cbv zeta. rewrite (cont_true b1 H1), (cont_true b2 H2), (cont_true b3 H3).
  rewrite (proj2 (Z.leb_le _ _) Hlo), (proj2 (Z.leb_le _ _) Hhi).
  reflexivity.
Qed.

(* The bytes of one code point decode to it. *)
Lemma decode_encoded_cp (cp : Z) (enc rest : list Z) :
  Utf8.encode_cp cp = Some enc ->
  Utf8.decode (enc ++ rest) = option_map (cons cp) (Utf8.decode rest).
Proof.
  unfold Utf8.encode_cp.
  destruct ((0 <=? cp) && (cp <? 128)) eqn:E1.
  { intros [= <-]. split_bools. apply decode_1. lia. }
  destruct ((128 <=? cp) && (cp <? 2048)) eqn:E2.
  { intros [= <-]. split_bools. cbn [app].
    rewrite decode_2 by div_lia. do 2 f_equal. div_lia. }
  destruct ((2048 <=? cp) && (cp <? 65536)) eqn:E3.
  { destruct (Utf8.surrogate cp) eqn:Hs; [discriminate |].
    intros [= <-]. split_bools. cbn [app].
    assert (Hcp : (224 + cp / 4096 - 224) * 4096
                  + (128 + (cp / 64) mod 64 - 128) * 64
                  + (128 + cp mod 64 - 128) = cp) by div_lia.
    rewrite decode_3; try div_lia; rewrite Hcp; [reflexivity | assumption]. }
  destruct ((65536 <=? cp) && (cp <=? 1114111)) eqn:E4; [| discriminate].
  intros [= <-]. split_bools. cbn [app].
  assert (Hcp : (240 + cp / 262144 - 240) * 262144
                + (128 + (cp / 4096) mod 64 - 128) * 4096
                + (128 + (cp / 64) mod 64 - 128) * 64
                + (128 + cp mod 64 - 128) = cp) by div_lia.
  rewrite decode_4 by div_lia. now rewrite Hcp.
Qed.

(* Decoding what was encoded gives the text back. *)
Lemma encode_decode (s bs : list Z) :
  Utf8.encode s = Some bs -> Utf8.decode bs = Some s.
Proof.
  revert bs. induction s as [| cp s IH]; intros bs; simpl.
  - now intros [= <-].
  - destruct (Utf8.encode_cp cp) as [enc |] eqn:He; [| discriminate].
    destruct (Utf8.encode s) as [b |]; [| discriminate].
    intros [= <-]. rewrite (decode_encoded_cp _ _ _ He), (IH b eq_refl).
    reflexivity.
Qed.

(** X11. Write, then read: when the file behind a path that passes the
    sandbox test and exists holds the UTF-8 encoding of a text without
    carriage returns, read_file returns that very text. *)
Theorem read_file_round_trip (w : world) (path : string)
    (text bs : list Z) :
  path_is_safe w path = true ->
  path_exists w path = true ->
  Utf8.encode text = Some bs ->
  ~ In 13 text ->
  read_bytes w path = Bytes bs ->
  read_file w path = (Return text, [CallExists path; CallOpen path]).
Proof.
  intros Hs He Henc Hcr Hb. unfold read_file, open_read_text.
  rewrite Hs, He, Hb, (encode_decode _ _ Henc). simpl.
  now rewrite (translate_newlines_no_cr text Hcr).
Qed.

Lemma read_file_round_trip_witness :
  read_file Fixtures.machine "/data/plain.txt"
  = (Return [104; 105; 10],
     [CallExists "/data/plain.txt"; CallOpen "/data/plain.txt"]).
Proof.
  apply (read_file_round_trip Fixtures.machine "/data/plain.txt"
           [104; 105; 10] [104; 105; 10]); try reflexivity.
  simpl. intros [H | [H | [H | []]]]; discriminate H.
Defined.

(* --------------------------------------------------------------------- *)
(*  The sandbox test and normalization                                    *)
(* --------------------------------------------------------------------- *)

(* Without ".." nothing is popped: the first component stays. *)
Lemma fold_norm_step_head (n : nat) (comps : list string) (x : string)
    (tl : list string) :
  Forall (fun c => c <> "..") comps ->
  exists tl', fold_left (norm_step n) comps (x :: tl) = x :: tl'.
Proof.
  intros H. revert tl.
  induction H as [| c comps Hc _ IH]; intros tl; simpl; [now exists tl |].
  unfold norm_step at 2.
  destruct (String.eqb c EmptyString || String.eqb c "."); [apply IH |].
  apply String.eqb_neq in Hc. rewrite Hc. simpl. apply IH.
Qed.

(** X12. Every path spelled "/data/" followed by anything that has no
    ".." component passes the sandbox test on every machine: its
    normalized form is /data or lies underneath it, and read_file never
    answers it with a 400. *)
Theorem read_file_admits_data_paths (w : world) (rest : string) :
  Forall (fun c => c <> "..") (split "/" rest) ->
  under "/data" (abspath (getcwd w) ("/data/" +:+ rest)) = true
  /\ path_is_safe w ("/data/" +:+ rest) = true
  /\ forall d, fst (read_file w ("/data/" +:+ rest))
               <> Raise (HTTPException 400 d).
Proof.
  intros H.
  assert (Hu : under "/data" (abspath (getcwd w) ("/data/" +:+ rest)) = true).
  { change (abspath (getcwd w) ("/data/" +:+ rest))
      with (String "/" (join "/" (normpath_comps ("/data" +:+ String "/" rest)))).
    unfold normpath_comps. rewrite (split_app "/" "/data" rest), fold_left_app.
    change (initial_slashes_of ("/data" +:+ String "/" rest)) with 1%nat.
    change (fold_left (norm_step 1) (split "/" "/data") []) with ["data"].
    destruct (fold_norm_step_head 1 _ "data" [] H) as [tl' ->].
    destruct tl'; reflexivity. }
  assert (Hs : path_is_safe w ("/data/" +:+ rest) = true).
  { rewrite path_is_safe_prefix, (under_startswith _ _ Hu). reflexivity. }
  split; [exact Hu |]. split; [exact Hs |].
  now apply read_file_safe_not_400.
Qed.

Lemma read_file_admits_data_paths_witness :
  path_is_safe Fixtures.machine ("/data/" +:+ "logs//./2024/app.log") = true.
Proof.
  apply (read_file_admits_data_paths Fixtures.machine "logs//./2024/app.log").
  vm_compute. repeat constructor; discriminate.
Defined.

Lemma no_slash_cons (c : ascii) (s : string) :
  Ascii.eqb c "/" = false -> no_slash s -> no_slash (String c s).
Proof.
  unfold no_slash. intros Hc Hs. cbn [str_in startswith].
  rewrite Ascii.eqb_sym, Hc, Hs. reflexivity.
Qed.

Lemma split_no_slash (s : string) : Forall no_slash (split "/" s).
Proof.
  induction s as [| c s IH]; simpl; [now repeat constructor |].
  destruct (Ascii.eqb c "/") eqn:Hc; [now constructor |].
  destruct (split "/" s) as [| h t].
  { constructor; [| constructor]. now apply no_slash_cons. }
  apply Forall_cons in IH as [Hh Ht].
  constructor; [now apply no_slash_cons | exact Ht].
Qed.

Lemma split_single (s : string) : no_slash s -> split "/" s = [s].
Proof.
  unfold no_slash. induction s as [| c s IH]; [reflexivity |].
  cbn [str_in startswith]. intros H.
  apply orb_false_iff in H as [Hc Hs]. rewrite andb_true_r in Hc.
  simpl. rewrite Ascii.eqb_sym, Hc. now rewrite (IH Hs).
Qed.

Lemma split_join (comps : list string) :
  comps <> [] -> Forall no_slash comps -> split "/" (join "/" comps) = comps.
Proof.
  induction comps as [| x comps IH]; [contradiction |].
  intros _ H. apply Forall_cons in H as [Hx Hc].
  destruct comps as [| y comps]; [now apply split_single |].
  change (join "/" (x :: y :: comps))
    with (x +:+ String "/" (join "/" (y :: comps))).
  rewrite split_app, (split_single x Hx), IH; [reflexivity | discriminate |].
  exact Hc.
Qed.

Lemma removelast_Forall {A : Type} (Q : A -> Prop) (l : list A) :
  Forall Q l -> Forall Q (List.removelast l).
Proof.
  induction 1 as [| a l Ha Hl IH]; [constructor |].
  simpl. destruct l; [constructor | now constructor].
Qed.

Lemma norm_step_no_slash (n : nat) (acc : list string) (comp : string) :
  no_slash comp -> Forall no_slash acc ->
  Forall no_slash (norm_step n acc comp).
Proof.
  intros Hc Hacc. unfold norm_step.
  destruct (_ || String.eqb comp "."); [exact Hacc |].
  destruct (_ || _ || _).
  - apply Forall_app. split; [exact Hacc | now repeat constructor].
  - destruct (negb (is_nil acc)); [now apply removelast_Forall | exact Hacc].
Qed.

Lemma normpath_comps_no_slash (path : string) :
  Forall no_slash (normpath_comps path).
Proof.
  unfold normpath_comps.
  generalize (initial_slashes_of path) as n; intro n.
  assert (H : forall comps acc,
             Forall no_slash comps -> Forall no_slash acc ->
             Forall no_slash (fold_left (norm_step n) comps acc)).
  { induction comps as [| c comps IH]; intros acc Hc Hacc; [exact Hacc |].
    apply Forall_cons in Hc as [Hc Hcs]. simpl.
    apply IH; [exact Hcs | now apply norm_step_no_slash]. }
  apply H; [apply split_no_slash | constructor].
Qed.

(* Components that need no resolving pass the loop unchanged. *)
Lemma fold_norm_step_id (n : nat) (comps acc : list string) :
  Forall resolved comps ->
  fold_left (norm_step n) comps acc = (acc ++ comps)%list.
Proof.
  intros H. revert acc.
  induction H as [| c comps (Hdd & Hd & He) _ IH]; intros acc; simpl.
  - now rewrite app_nil_r.
  - unfold norm_step at 2.
    apply String.eqb_neq in Hdd, Hd, He. rewrite Hdd, Hd, He. simpl.
    rewrite IH, <- app_assoc. reflexivity.
Qed.

Lemma join_not_slash (comps : list string) :
  Forall resolved comps -> Forall no_slash comps ->
  startswith "/" (join "/" comps) = false.
Proof.
  intros Hr Hn. destruct comps as [| x comps]; [reflexivity |].
  apply Forall_cons in Hr as [(_ & _ & Hx) _].
  apply Forall_cons in Hn as [Hs _].
  destruct x as [| c x]; [contradiction |].
  unfold no_slash in Hs. cbn [str_in startswith] in Hs.
  apply orb_false_iff in Hs as [Hc _]. rewrite andb_true_r in Hc.
  destruct comps; change (Ascii.eqb "/" c && true = false);
    now rewrite Hc.
Qed.

(* normpath leaves a normalized absolute path as it is. *)
Lemma normpath_normal (n : nat) (comps : list string) :
  (n = 1 \/ n = 2)%nat ->
  Forall resolved comps -> Forall no_slash comps ->
  normpath (slashes n +:+ join "/" comps) = slashes n +:+ join "/" comps.
Proof.
  intros Hn Hr Hs. pose proof (join_not_slash comps Hr Hs) as Hj.
  assert (Hinit : initial_slashes_of (slashes n +:+ join "/" comps) = n).
  { unfold initial_slashes_of. destruct Hn as [-> | ->].
    - change ((if startswith "/" (join "/" comps)
                  && negb (startswith "//" (join "/" comps))
               then 2 else 1)%nat = 1%nat).
      now rewrite Hj.
    - change ((if true && negb (startswith "/" (join "/" comps))
               then 2 else 1)%nat = 2%nat).
      now rewrite Hj. }
  assert (Hcomps : normpath_comps (slashes n +:+ join "/" comps) = comps).
  { unfold normpath_comps. rewrite Hinit.
    assert (Hsplit : fold_left (norm_step n) (split "/" (join "/" comps)) []
                     = comps).
    { destruct comps as [| x comps]; [reflexivity |].
      rewrite split_join; [| discriminate | exact Hs].
      now rewrite fold_norm_step_id. }
    destruct Hn as [-> | ->]; exact Hsplit. }
  unfold normpath. cbv zeta. rewrite Hinit, Hcomps.
  destruct Hn as [-> | ->]; reflexivity.
Qed.

Lemma initial_slashes_of_abs (path : string) :
  isabs path = true ->
  (initial_slashes_of path = 1 \/ initial_slashes_of path = 2)%nat.
Proof.
  unfold isabs, initial_slashes_of. intros ->.
  destruct (_ && _); [now right | now left].
Qed.

Lemma abspath_idem (cwd path : string) :
  isabs cwd = true ->
  abspath cwd (abspath cwd path) = abspath cwd path.
Proof.
  intros Hc. rewrite (abspath_comps cwd path Hc).
  pose proof (absolute_isabs cwd path Hc) as Ha.
  set (a := absolute cwd path) in *.
  pose proof (initial_slashes_of_abs a Ha) as Hn.
  assert (Hq : isabs (slashes (initial_slashes_of a)
                      +:+ join "/" (normpath_comps a)) = true).
  { destruct Hn as [-> | ->]; reflexivity. }
  unfold abspath at 1, absolute at 1. rewrite Hq.
  apply normpath_normal; [exact Hn | |].
  - now apply normpath_comps_resolved.
  - apply normpath_comps_no_slash.
Qed.

(** X13. Normalizing is done once and for all: under an absolute working
    directory, the normalized form of a path normalizes to itself, so the
    sandbox test gives a path and its normalized form the same verdict. *)
Theorem path_is_safe_of_abspath (w : world) (path : string) :
  isabs (getcwd w) = true ->
  abspath (getcwd w) (abspath (getcwd w) path) = abspath (getcwd w) path
  /\ path_is_safe w (abspath (getcwd w) path) = path_is_safe w path.
Proof.
  intros Hc. pose proof (abspath_idem _ path Hc) as Hi.
  split; [exact Hi |]. unfold path_is_safe. now rewrite Hi.
Qed.

Lemma path_is_safe_of_abspath_witness :
  path_is_safe Fixtures.machine
    (abspath (getcwd Fixtures.machine) "data/../../etc/./passwd")
  = path_is_safe Fixtures.machine "data/../../etc/./passwd".
Proof.
  apply (path_is_safe_of_abspath Fixtures.machine "data/../../etc/./passwd").
  reflexivity.
Defined.

(* --------------------------------------------------------------------- *)
(*  Start of the process                                                  *)
(* --------------------------------------------------------------------- *)

(** X14. The process starts exactly when AIPROXY_TOKEN has a non-empty
    value, taken from the process environment if it is set there and from
    the .env file otherwise; a token set to the empty string in the
    process environment stops the start even when the .env file has
    one. *)
Theorem startup_needs_token (dotenv environ : gmap string string) :
  (forall key,
     Startup.startup dotenv environ = Return key
     <-> exists tok, key = Some tok /\ tok <> EmptyString
           /\ (environ !! "AIPROXY_TOKEN" = Some tok
               \/ (environ !! "AIPROXY_TOKEN" = None
                   /\ dotenv !! "AIPROXY_TOKEN" = Some tok)))
  /\ (environ !! "AIPROXY_TOKEN" = Some EmptyString ->
      exists str_e, Startup.startup dotenv environ = Raise (Exception str_e)).
Proof.
  unfold Startup.startup, Startup.load_dotenv. cbv zeta. split.
  - intros key. split.
    + destruct ((environ ∪ dotenv) !! "AIPROXY_TOKEN") as [tok |] eqn:E;
        simpl; [| discriminate].
      destruct (String.eqb_spec tok EmptyString) as [| Hne];
        simpl; [discriminate |].
      intros [= <-]. exists tok. split; [reflexivity |]. split; [exact Hne |].
      now apply lookup_union_Some_raw in E.
    + intros (tok & -> & Hne & Hlook).
      apply lookup_union_Some_raw in Hlook. rewrite Hlook. simpl.
      apply String.eqb_neq in Hne. now rewrite Hne.
  - intros He.
    assert (E : (environ ∪ dotenv) !! "AIPROXY_TOKEN" = Some EmptyString).
    { apply lookup_union_Some_raw. now left. }
    rewrite E. simpl. eauto.
Qed.

Lemma startup_needs_token_witness :
  exists str_e,
    Startup.startup {[ "AIPROXY_TOKEN" := "secret" ]}
                    {[ "AIPROXY_TOKEN" := EmptyString ]}
    = Raise (Exception str_e).
Proof.
  apply (proj2 (startup_needs_token {[ "AIPROXY_TOKEN" := "secret" ]}
                                    {[ "AIPROXY_TOKEN" := EmptyString ]})).
  reflexivity.
Defined.

(* --------------------------------------------------------------------- *)
(*  Longer texts and longer paths                                         *)
(* --------------------------------------------------------------------- *)

Lemma str_in_extend (x t pre post : string) :
  str_in x t = true -> str_in x (pre +:+ t +:+ post) = true.
Proof.
  intros H. apply str_in_spec in H as (a & b & ->).
  replace (pre +:+ (a +:+ x +:+ b) +:+ post)
    with ((pre +:+ a) +:+ x +:+ (b +:+ post)).
  - apply str_in_middle.
  - now rewrite !string_app_assoc.
Qed.

Lemma holds_extend (c : cond) (t pre post : string) :
  holds c t = true -> holds c (pre +:+ t +:+ post) = true.
Proof.
  induction c as [x | a IHa b IHb | a IHa b IHb]; simpl.
  - apply str_in_extend.
  - intros H. apply andb_true_iff in H as [Ha Hb].
    now rewrite IHa, IHb.
  - intros H. apply orb_true_iff in H as [H | H].
    + now rewrite IHa.
    + rewrite IHb by exact H. apply orb_true_r.
Qed.

Lemma first_match_at_most (rs : list (cond * string)) (text : string)
    (i : nat) (c : cond) (cat : string) :
  nth_error rs i = Some (c, cat) -> holds c text = true ->
  exists j c' cat',
    (j <= i)%nat /\ nth_error rs j = Some (c', cat')
    /\ first_match rs text = Some cat'.
Proof.
  revert i. induction rs as [| [c0 cat0] rs IH]; intros i Hi Hc.
  - now destruct i.
  - simpl. destruct (holds c0 text) eqn:H0.
    + exists 0%nat, c0, cat0. repeat split. lia.
    + destruct i as [| i]; simpl in Hi.
      * injection Hi as -> ->. congruence.
      * destruct (IH i Hi Hc) as (j & c' & cat' & Hj & Hn & Hf).
        exists (S j), c', cat'. repeat split; [lia | exact Hn | exact Hf].
Qed.

(** X15. A recognized text stays recognized inside a longer one: when
    classify_task returns the category of some branch for a text, it
    returns, for that text with anything put before and after it, the
    category of the same branch or of a branch above it. *)
Theorem classify_task_longer_text (text pre post cat : string) :
  classify_task text = Return cat ->
  exists i j c c' cat',
    nth_error rules i = Some (c, cat)
    /\ nth_error rules j = Some (c', cat')
    /\ (j <= i)%nat
    /\ classify_task (pre +:+ text +:+ post) = Return cat'.
Proof.
  intros H. rewrite classify_task_first_match in H. unfold Rules.classify in H.
  destruct (first_match rules (lower text)) as [cat0 |] eqn:E;
    [| discriminate].
  injection H as ->.
  destruct (first_match_Some _ _ _ E) as (i & c & Hi & Hh & _).
  pose proof (holds_extend c _ (lower pre) (lower post) Hh) as Hext.
  destruct (first_match_at_most rules _ i c cat Hi Hext)
    as (j & c' & cat' & Hj & Hn & Hf).
  exists i, j, c, c', cat'. repeat split; try assumption.
  rewrite classify_task_first_match. unfold Rules.classify.
  now rewrite !lower_app, Hf.
Qed.

Lemma classify_task_longer_text_witness :
  exists i j c c' cat',
    nth_error rules i = Some (c, "B5")
    /\ nth_error rules j = Some (c', cat')
    /\ (j <= i)%nat
    /\ classify_task ("Use the API, then " +:+ "run a SQL query"
                      +:+ " on the result") = Return cat'.
Proof.
  apply (classify_task_longer_text "run a SQL query" "Use the API, then "
           " on the result" "B5").
  reflexivity.
Defined.

(** X16. Going down into /data and up again gains nothing: for a rest
    that does not begin with "/", the path "/data/../" followed by the
    rest has the normalized form of "/" followed by the rest, and the
    sandbox test gives both the same verdict. *)
Theorem path_is_safe_data_dotdot (w : world) (rest : string) :
  startswith "/" rest = false ->
  abspath (getcwd w) ("/data/../" +:+ rest)
  = abspath (getcwd w) ("/" +:+ rest)
  /\ path_is_safe w ("/data/../" +:+ rest) = path_is_safe w ("/" +:+ rest).
Proof.
  intros Hr.
  assert (Ha : abspath (getcwd w) ("/data/../" +:+ rest)
               = abspath (getcwd w) ("/" +:+ rest)).
  { change (abspath (getcwd w) ("/data/../" +:+ rest))
      with (String "/" (join "/"
              (normpath_comps ("/data/.." +:+ String "/" rest)))).
    change (abspath (getcwd w) ("/" +:+ rest))
      with (normpath (EmptyString +:+ String "/" rest)).
    unfold normpath, normpath_comps. cbv zeta.
    rewrite !(split_app "/"), !fold_left_app.
    change (initial_slashes_of ("/data/.." +:+ String "/" rest)) with 1%nat.
    assert (Hn : initial_slashes_of (EmptyString +:+ String "/" rest) = 1%nat).
    { unfold initial_slashes_of.
      change ((if startswith "/" rest && negb (startswith "//" rest)
               then 2 else 1)%nat = 1%nat).
      now rewrite Hr. }
    rewrite Hn. reflexivity. }
  split; [exact Ha |]. unfold path_is_safe. now rewrite Ha.
Qed.

Lemma path_is_safe_data_dotdot_witness :
  path_is_safe Fixtures.machine ("/data/../" +:+ "etc/passwd")
  = path_is_safe Fixtures.machine ("/" +:+ "etc/passwd").
Proof.
  apply (path_is_safe_data_dotdot Fixtures.machine "etc/passwd").
  reflexivity.
Defined.
